(** * UpgradeFeature and the V8 transaction context

    A shallow embedding of [arangod/RestServer/UpgradeFeature.cpp] and of the
    interface declared in [arangod/Transaction/V8Context.h].

    The feature runs inside a server process.  A process is modelled by the
    part of its state the feature touches (the integers it can reach through
    a pointer, the isolate's context slot, the sandbox held from the dealer,
    the global object of the sandbox) together with the chronological trace
    of the calls it makes to its collaborators (logger, write-ahead log,
    dealer, scripting engine, application server).  [FATAL_ERROR_EXIT]
    terminates the process: it is an outcome of its own, and nothing that
    follows it in the program text is run, destructors included.

    The upgrade script is taken to be a function of the database and of the
    global object of the context it runs in, which is all the feature looks
    at afterwards.  Not modelled: [v8::HandleScope] (handle lifetime only),
    the [_databasesProtector] guard around the databases snapshot, and
    [collectOptions], which only binds the two options to the members
    [_upgrade] and [_upgradeCheck]. *)

From Stdlib Require Import ZArith.
From stdpp Require Import gmap strings list fin_maps.

Set Warnings "-register-all".
Open Scope string_scope.
Open Scope list_scope.

(** ** Constants of <cstdlib> *)

Definition EXIT_SUCCESS : Z := 0.
Definition EXIT_FAILURE : Z := 1.

(** ** Values of the scripting sandbox *)

Inductive JsValue : Type :=
| JsUndefined
| JsBoolean (b : bool)
| JsObject (props : gmap string JsValue).

(** ** Databases *)

Record TRI_vocbase_t : Type := mk_vocbase { _name : string }.

(** ** Logging *)

Inductive LogLevel : Type := FATAL | ERR | WARN | INFO | DEBUG | TRACE.

Inductive LogTopic : Type := Logger_STARTUP.

(** ** What the process does to the outside, in the order it does it *)

Inductive Event : Type :=
| EvLog (level : LogLevel) (topic : option LogTopic) (msg : string)
| EvDisableFeatures (names : list string)
| EvDisableReplicationApplier
| EvEnableUpgrade
| EvClusterDisable
| EvWalOpen (ok : bool)
| EvEnterContext (db : string) (useDatabase : bool) (forceContext : Z)
| EvExitContext (id : Z)
| EvContextEnter (id : Z)
| EvContextExit (id : Z)
| EvUpgradeDatabase (db : string)
| EvStoreInt (addr : N) (v : Z)
| EvBeginShutdown
| EvExit (status : Z).

(** The context handed out by the dealer ([V8Server/V8Context.h]): the
    upgrade code only uses its isolate and its context, which the number of
    the context identifies. *)
Record V8DealerContext : Type := mk_dealer_context { _id : Z }.

Record Process : Type := mk_process {
  trace : list Event;
  (** the [int] objects of the process, by address *)
  ints : gmap N Z;
  (** the isolate's current context: the slot of the execution unit *)
  current_context : option Z;
  (** the occupants saved by [Enter], the most recent first *)
  saved_contexts : list (option Z);
  (** the sandbox the execution unit holds from the dealer *)
  held_sandbox : option V8DealerContext;
  (** the global object of the sandbox context *)
  global : gmap string JsValue
}.

Definition with_trace (p : Process) (t : list Event) : Process :=
  mk_process t (ints p) (current_context p) (saved_contexts p)
             (held_sandbox p) (global p).

Definition with_ints (p : Process) (m : gmap N Z) : Process :=
  mk_process (trace p) m (current_context p) (saved_contexts p)
             (held_sandbox p) (global p).

Definition with_slot (p : Process) (c : option Z) (s : list (option Z))
  : Process :=
  mk_process (trace p) (ints p) c s (held_sandbox p) (global p).

Definition with_sandbox (p : Process) (h : option V8DealerContext) : Process :=
  mk_process (trace p) (ints p) (current_context p) (saved_contexts p)
             h (global p).

Definition with_global (p : Process) (g : gmap string JsValue) : Process :=
  mk_process (trace p) (ints p) (current_context p) (saved_contexts p)
             (held_sandbox p) g.

(** ** Computations that may terminate the process *)

Inductive Outcome (A : Type) : Type :=
| Returned (a : A)
| Exited (status : Z).

Arguments Returned {A} a.
Arguments Exited {A} status.

Definition Run (A : Type) : Type := Process -> Outcome A * Process.

#[global] Instance Run_ret : MRet Run :=
  fun A (a : A) (p : Process) => (Returned a, p).

#[global] Instance Run_bind : MBind Run :=
  fun A B (f : A -> Run B) (c : Run A) (p : Process) =>
    match c p with
    | (Returned a, p') => f a p'
    | (Exited st, p') => (Exited st, p')
    end.

Definition emit (e : Event) : Run unit :=
  fun p => (Returned tt, with_trace p (trace p ++ [e])).

(** Modelled from the spec: the macro [FATAL_ERROR_EXIT] (Basics) is not in
    the sources at hand; a fatal condition "terminates the process
    immediately with a non-zero status after logging". *)
Definition FATAL_ERROR_EXIT {A : Type} : Run A :=
  fun p => (Exited EXIT_FAILURE, with_trace p (trace p ++ [EvExit EXIT_FAILURE])).

Definition LOG (level : LogLevel) (msg : string) : Run unit :=
  emit (EvLog level None msg).

Definition LOG_TOPIC (level : LogLevel) (topic : LogTopic) (msg : string)
  : Run unit :=
  emit (EvLog level (Some topic) msg).

(** [for (auto& x : l) body] *)
Fixpoint for_each {A : Type} (l : list A) (body : A -> Run unit) : Run unit :=
  match l with
  | [] => mret tt
  | x :: rest => body x;; for_each rest body
  end.

(** ** The collaborators of the feature *)

(** What the feature consumes from the rest of the server.  The write-ahead
    log, the databases registry and the upgrade script are not part of the
    two files modelled here: their behaviour is a parameter. *)
Record Server : Type := mk_server {
  (** what [wal::LogfileManager::instance()->open()] answers *)
  wal_open : bool;
  (** [DatabaseFeature::DATABASE->vocbase()], the system database *)
  vocbase : TRI_vocbase_t;
  (** [_databasesLists.load()->_databases], in enumeration order *)
  _databases : list (string * TRI_vocbase_t);
  (** [TRI_UpgradeDatabase(vocbase, localContext)]: from the database and the
      global object of the context, the flag it returns and the global
      object it leaves behind *)
  TRI_UpgradeDatabase :
    TRI_vocbase_t -> gmap string JsValue -> bool * gmap string JsValue
}.

Definition LogfileManager_open (srv : Server) : Run bool :=
  emit (EvWalOpen (wal_open srv));; mret (wal_open srv).

(** Modelled from the spec: [V8DealerFeature::enterContext] is not in the
    sources at hand; "enter(database, exclusive) -> SandboxHandle" is a
    scoped acquisition of the sandbox slot.  The context asked for by number
    is the one handed out. *)
Definition enterContext (db : TRI_vocbase_t) (useDatabase : bool)
    (forceContext : Z) : Run V8DealerContext :=
  fun p =>
    let context := mk_dealer_context forceContext in
    (Returned context,
     with_sandbox
       (with_trace p (trace p ++ [EvEnterContext (_name db) useDatabase forceContext]))
       (Some context)).

(** Modelled from the spec: [V8DealerFeature::exitContext], "exit(handle)",
    gives the sandbox slot back. *)
Definition exitContext (context : V8DealerContext) : Run unit :=
  fun p =>
    (Returned tt,
     with_sandbox (with_trace p (trace p ++ [EvExitContext (_id context)])) None).

(** [v8::Context::Enter]: the occupant of the slot is saved and the context
    becomes the current one. *)
Definition Context_Enter (c : Z) : Run unit :=
  fun p =>
    (Returned tt,
     with_slot (with_trace p (trace p ++ [EvContextEnter c]))
               (Some c) (current_context p :: saved_contexts p)).

(** [v8::Context::Exit]: the occupant saved by the matching [Enter] is put
    back.  Exiting a context that is not the entered one changes nothing. *)
Definition Context_Exit (c : Z) : Run unit :=
  fun p =>
    let p' := with_trace p (trace p ++ [EvContextExit c]) in
    (Returned tt,
     match saved_contexts p with
     | prior :: rest =>
         if bool_decide (current_context p = Some c)
         then with_slot p' prior rest
         else p'
     | [] => p'
     end).

(** [v8::Context::Scope scope(c); body]: entered by the constructor, exited
    by the destructor when the block is left by falling off its end. *)
Definition Context_Scope {A : Type} (c : Z) (body : Run A) : Run A :=
  Context_Enter c;; r ← body; Context_Exit c;; mret r.

(** [localContext->Global()->Set(key, v)] *)
Definition Global_Set (key : string) (v : JsValue) : Run unit :=
  fun p => (Returned tt, with_global p (<[key := v]> (global p))).

(** [localContext->Global()->Has(key)] *)
Definition Global_Has (key : string) : Run bool :=
  fun p => (Returned (bool_decide (is_Some (global p !! key))), p).

Definition call_TRI_UpgradeDatabase (srv : Server) (db : TRI_vocbase_t)
  : Run bool :=
  fun p =>
    let '(ok, g) := TRI_UpgradeDatabase srv db (global p) in
    (Returned ok,
     with_global (with_trace p (trace p ++ [EvUpgradeDatabase (_name db)])) g).

(** [*addr = v] *)
Definition store_int (addr : N) (v : Z) : Run unit :=
  fun p =>
    (Returned tt,
     with_ints (with_trace p (trace p ++ [EvStoreInt addr v]))
               (<[addr := v]> (ints p))).

(** [server()->beginShutdown()] *)
Definition beginShutdown : Run unit := emit EvBeginShutdown.

(** ** The feature *)

Record UpgradeFeature : Type := mk_feature {
  _upgrade : bool;
  _upgradeCheck : bool;
  (** the address of the caller's result *)
  _result : N;
  _nonServerFeatures : list string
}.

(** The constructor: the defaults of the two options, and the pointer kept. *)
Definition UpgradeFeature_new (result : N) (nonServerFeatures : list string)
  : UpgradeFeature :=
  mk_feature false true result nonServerFeatures.

(** [ApplicationFeature::name()] *)
Definition name : string := "Upgrade".

Definition upgrade_failed_message (db : string) : string :=
  "Database '" +:+ db +:+
  "' upgrade failed. Please inspect the logs from the upgrade procedure".

Definition needs_upgrade_message (db : string) : string :=
  "Database '" +:+ db +:+
  "' needs upgrade. Please start the server with the --upgrade option".

Definition javascript_error_message : string :=
  "JavaScript error during server start".

Definition conflict_message : string :=
  "cannot specify both '--database.upgrade true' and " +:+
  "'--database.upgrade-check false'".

Definition validateOptions (f : UpgradeFeature) : Run unit :=
  LOG_TOPIC TRACE Logger_STARTUP (name +:+ "::validateOptions");;
  (if _upgrade f && negb (_upgradeCheck f) then
     LOG FATAL conflict_message;;
     FATAL_ERROR_EXIT
   else mret tt);;
  if negb (_upgrade f) then
    LOG TRACE "executing upgrade check: not disabling server features"
  else
    LOG TRACE "executing upgrade procedure: disabling server features";;
    emit (EvDisableFeatures (_nonServerFeatures f));;
    emit EvDisableReplicationApplier;;
    emit EvEnableUpgrade;;
    emit EvClusterDisable.

(** The body of the loop over the databases. *)
Definition upgradeOne (f : UpgradeFeature) (srv : Server) (localContext : Z)
    (p : string * TRI_vocbase_t) : Run unit :=
  let vocbase := p.2 in
  let args := JsObject (<["upgrade" := JsBoolean (_upgrade f)]> ∅) in
  Global_Set "UPGRADE_ARGS" args;;
  ok ← call_TRI_UpgradeDatabase srv vocbase;
  if negb ok then
    has_marker ← Global_Has "UPGRADE_STARTED";
    ((if has_marker : bool then
       Context_Exit localContext;;
       if _upgrade f then
         LOG FATAL (upgrade_failed_message (_name vocbase));;
         FATAL_ERROR_EXIT
       else
         LOG FATAL (needs_upgrade_message (_name vocbase));;
         FATAL_ERROR_EXIT
     else
       LOG FATAL javascript_error_message;;
       FATAL_ERROR_EXIT) : Run unit);;
    LOG DEBUG ("database '" +:+ _name vocbase +:+ "' init/upgrade done")
  else mret tt.

Definition upgradeDatabase (f : UpgradeFeature) (srv : Server) : Run unit :=
  LOG TRACE "starting database init/upgrade";;
  let systemVocbase := vocbase srv in
  context ← enterContext systemVocbase true 0;
  let localContext := _id context in
  Context_Enter localContext;;
  Context_Scope localContext (
    LOG DEBUG "running database init/upgrade";;
    let theLists := _databases srv in
    for_each theLists (upgradeOne f srv localContext));;
  Context_Exit localContext;;
  exitContext context;;
  (if _upgrade f then
     store_int (_result f) EXIT_SUCCESS;;
     LOG INFO "database upgrade passed"
   else mret tt);;
  LOG TRACE "finished database init/upgrade".

Definition start (f : UpgradeFeature) (srv : Server) : Run unit :=
  LOG_TOPIC TRACE Logger_STARTUP (name +:+ "::start");;
  ok ← LogfileManager_open srv;
  (if negb ok then
     LOG FATAL "Unable to finish WAL recovery procedure";;
     FATAL_ERROR_EXIT
   else mret tt);;
  (if _upgradeCheck f then upgradeDatabase f srv else mret tt);;
  (if _upgrade f then beginShutdown else mret tt).

(** Modelled from the spec: the feature-startup framework is not in the
    sources at hand; its validation hook runs "before startup proceeds", so
    a feature is validated and then started. *)
Definition startup (f : UpgradeFeature) (srv : Server) : Run unit :=
  validateOptions f;; start f srv.

(** ** Observations on a trace *)

(** The databases the upgrade script was called for, in call order. *)
Definition visited (t : list Event) : list string :=
  omap (fun e => match e with EvUpgradeDatabase db => Some db | _ => None end) t.

(** The messages logged at level FATAL, in order. *)
Definition fatal_messages (t : list Event) : list string :=
  omap (fun e => match e with EvLog FATAL _ m => Some m | _ => None end) t.

(** The values stored through a pointer, with their addresses, in order. *)
Definition stores (t : list Event) : list (N * Z) :=
  omap (fun e => match e with EvStoreInt a v => Some (a, v) | _ => None end) t.

Definition is_shutdown (e : Event) : bool :=
  match e with EvBeginShutdown => true | _ => false end.

Definition is_wal_open (e : Event) : bool :=
  match e with EvWalOpen _ => true | _ => false end.

Definition is_exit_context (e : Event) : bool :=
  match e with EvExitContext _ => true | _ => false end.

(** ** The answers of the upgrade script along a sweep *)

(** The object the loop stores under UPGRADE_ARGS. *)
Definition upgrade_args (f : UpgradeFeature) : JsValue :=
  JsObject (<["upgrade" := JsBoolean (_upgrade f)]> ∅).

(** What the script answers for database [d] when the loop reaches it with
    global object [g]. *)
Definition answer (f : UpgradeFeature) (srv : Server)
    (d : string * TRI_vocbase_t) (g : gmap string JsValue)
  : bool * gmap string JsValue :=
  TRI_UpgradeDatabase srv d.2 (<["UPGRADE_ARGS" := upgrade_args f]> g).

(** The global object left when the script has been run for the databases
    [dbs] one after the other from [g] and has returned true for each of
    them; [None] when it returns false for one of them. *)
Fixpoint all_succeed (f : UpgradeFeature) (srv : Server)
    (dbs : list (string * TRI_vocbase_t)) (g : gmap string JsValue)
  : option (gmap string JsValue) :=
  match dbs with
  | [] => Some g
  | d :: rest =>
      if (answer f srv d g).1
      then all_succeed f srv rest (answer f srv d g).2
      else None
  end.

(** The UPGRADE_STARTED marker. *)
Definition started (g : gmap string JsValue) : bool :=
  bool_decide (is_Some (g !! "UPGRADE_STARTED")).

(** The calls of the script for a list of databases, as events. *)
Definition calls (dbs : list (string * TRI_vocbase_t)) : list Event :=
  (fun d => EvUpgradeDatabase (_name d.2)) <$> dbs.

(** What the loop body does once the script has returned false: the branch
    [if (!ok)] of [upgradeOne], on its own. *)
Definition on_failure (f : UpgradeFeature) (localContext : Z)
    (db : TRI_vocbase_t) : Run unit :=
  has_marker ← Global_Has "UPGRADE_STARTED";
  ((if has_marker : bool then
      Context_Exit localContext;;
      if _upgrade f then
        LOG FATAL (upgrade_failed_message (_name db));;
        FATAL_ERROR_EXIT
      else
        LOG FATAL (needs_upgrade_message (_name db));;
        FATAL_ERROR_EXIT
    else
      LOG FATAL javascript_error_message;;
      FATAL_ERROR_EXIT) : Run unit);;
  LOG DEBUG ("database '" +:+ _name db +:+ "' init/upgrade done").

(** The message logged at level FATAL when the script has returned false for
    [db] and left the global object [g]. *)
Definition failure_message (f : UpgradeFeature) (db : TRI_vocbase_t)
    (g : gmap string JsValue) : string :=
  if started g then
    if _upgrade f then upgrade_failed_message (_name db)
    else needs_upgrade_message (_name db)
  else javascript_error_message.

(** The events of the failure branch. *)
Definition failure_events (f : UpgradeFeature) (lc : Z) (db : TRI_vocbase_t)
    (g : gmap string JsValue) : list Event :=
  (if started g then [EvContextExit lc] else []) ++
  [EvLog FATAL None (failure_message f db g); EvExit EXIT_FAILURE].

(** The events of [upgradeDatabase] before the loop and after it. *)
Definition sweep_prologue (srv : Server) : list Event :=
  [EvLog TRACE None "starting database init/upgrade";
   EvEnterContext (_name (vocbase srv)) true 0;
   EvContextEnter 0; EvContextEnter 0;
   EvLog DEBUG None "running database init/upgrade"].

Definition sweep_epilogue (f : UpgradeFeature) : list Event :=
  [EvContextExit 0; EvContextExit 0; EvExitContext 0] ++
  (if _upgrade f
   then [EvStoreInt (_result f) EXIT_SUCCESS;
         EvLog INFO None "database upgrade passed"]
   else []) ++
  [EvLog TRACE None "finished database init/upgrade"].

(** The events of [start] before the sweep. *)
Definition start_prologue (srv : Server) : list Event :=
  [EvLog TRACE (Some Logger_STARTUP) "Upgrade::start"; EvWalOpen (wal_open srv)].

(** ** The events a run adds to the trace *)

Definition performed (before after : Process) : list Event :=
  drop (length (trace before)) (trace after).

(** The names of the databases of a snapshot, in enumeration order. *)
Definition names (dbs : list (string * TRI_vocbase_t)) : list string :=
  (fun d => _name d.2) <$> dbs.

(** ** Concrete servers *)

Definition system_db : TRI_vocbase_t := mk_vocbase "_system".

Definition three_databases : list (string * TRI_vocbase_t) :=
  [("_system", system_db); ("orders", mk_vocbase "orders");
   ("users", mk_vocbase "users")].

(** A script that starts and succeeds for every database. *)
Definition script_succeeds (db : TRI_vocbase_t) (g : gmap string JsValue)
  : bool * gmap string JsValue :=
  (true, <["UPGRADE_STARTED" := JsBoolean true]> g).

(** A script that starts for every database and fails for "orders". *)
Definition script_fails_orders (db : TRI_vocbase_t) (g : gmap string JsValue)
  : bool * gmap string JsValue :=
  (negb (String.eqb (_name db) "orders"),
   <["UPGRADE_STARTED" := JsBoolean true]> g).

(** A script that cannot be run: it returns false and leaves the global
    object as it found it. *)
Definition script_broken (db : TRI_vocbase_t) (g : gmap string JsValue)
  : bool * gmap string JsValue :=
  (false, g).

Definition fresh_process : Process := mk_process [] ∅ None [] None ∅.

(** A process whose execution unit is already inside context 7, and whose
    result cell at address 16 holds 3. *)
Definition busy_process : Process :=
  mk_process [] {[ 16%N := 3%Z ]} (Some 7%Z) [None] None ∅.

(** ** The transaction context of the scripting engine *)

Module Transaction.

(** A transaction is opaque to the context, which only holds a pointer to
    it: it is known by its address. *)
Definition TransactionState : Type := N.

(** The members declared in [V8Context.h]; the two pointers to other
    contexts are addresses, null being [None].  The database is the
    constructor's first argument. *)
Record V8Context : Type := mk_context {
  _vocbase : TRI_vocbase_t;
  _sharedTransactionContext : option N;
  _mainScope : option N;
  _currentTransaction : option TransactionState;
  _embeddable : bool
}.

Inductive ContextError : Type :=
| ContextState (what : string).

Definition set_currentTransaction (ctx : V8Context)
    (trx : option TransactionState) : V8Context :=
  mk_context (_vocbase ctx) (_sharedTransactionContext ctx) (_mainScope ctx)
             trx (_embeddable ctx).

(** Modelled from the spec: the constructor is declared in the header and
    defined in a file that is not at hand; a context is created with no
    transaction registered and with its embeddability fixed. *)
Definition create (vocbase : TRI_vocbase_t) (embeddable : bool) : V8Context :=
  mk_context vocbase None None None embeddable.

(** Modelled from the spec: [registerTransaction] is declared in the header
    and defined in a file that is not at hand.  "Precondition: no
    transaction currently registered.  Effect: currentTransaction = txn.
    Failure: signals a ContextState error (transaction already
    registered)".  The context after the call is returned with the
    result. *)
Definition registerTransaction (trx : TransactionState) (ctx : V8Context)
  : (ContextError + unit) * V8Context :=
  match _currentTransaction ctx with
  | Some _ => (inl (ContextState "transaction already registered"), ctx)
  | None => (inr tt, set_currentTransaction ctx (Some trx))
  end.

(** Modelled from the spec: [unregisterTransaction] "clears the
    association" and never throws. *)
Definition unregisterTransaction (ctx : V8Context) : V8Context :=
  set_currentTransaction ctx None.

(** Modelled from the spec: [getParentTransaction] "returns the currently
    registered transaction without taking ownership". *)
Definition getParentTransaction (ctx : V8Context) : option TransactionState :=
  _currentTransaction ctx.

End Transaction.

(** ** Further observations and servers *)

(** The statuses the process exited with (at most one, and then last). *)
Definition exits (t : list Event) : list Z :=
  omap (fun e => match e with EvExit st => Some st | _ => None end) t.

(** The calls by which the feature changes what the server will run. *)
Definition is_server_change (e : Event) : bool :=
  match e with
  | EvDisableFeatures _ | EvDisableReplicationApplier
  | EvEnableUpgrade | EvClusterDisable => true
  | _ => false
  end.

Definition server_changes (t : list Event) : list Event :=
  List.filter is_server_change t.

(** The same server with another upgrade script. *)
Definition with_script (srv : Server)
    (script : TRI_vocbase_t -> gmap string JsValue -> bool * gmap string JsValue)
  : Server :=
  mk_server (wal_open srv) (vocbase srv) (_databases srv) script.

(** A script that starts and succeeds for every database but "orders", for
    which it cannot be run: it returns false and leaves the global object as
    it found it. *)
Definition script_broken_for_orders (db : TRI_vocbase_t)
    (g : gmap string JsValue) : bool * gmap string JsValue :=
  if String.eqb (_name db) "orders" then (false, g)
  else (true, <["UPGRADE_STARTED" := JsBoolean true]> g).

(** A script that succeeds exactly when it is asked to upgrade: it reads the
    member "upgrade" of UPGRADE_ARGS. *)
Definition script_obeys_args (db : TRI_vocbase_t) (g : gmap string JsValue)
  : bool * gmap string JsValue :=
  match g !! "UPGRADE_ARGS" with
  | Some (JsObject args) =>
      match args !! "upgrade" with
      | Some (JsBoolean b) => (b, <["UPGRADE_STARTED" := JsBoolean true]> g)
      | _ => (false, g)
      end
  | _ => (false, g)
  end.

(** The messages logged at level DEBUG, in order. *)
Definition debug_messages (t : list Event) : list string :=
  omap (fun e => match e with EvLog DEBUG _ m => Some m | _ => None end) t.

(** * Properties *)

Section monad.
Context {A B : Type}.

Lemma bind_unfold (c : Run A) (k : A -> Run B) (p : Process) :
  (c ≫= k) p =
  match c p with
  | (Returned a, p') => k a p'
  | (Exited st, p') => (Exited st, p')
  end.
Proof. reflexivity. Qed.

Lemma bind_returned (c : Run A) (k : A -> Run B) p a p' :
  c p = (Returned a, p') -> (c ≫= k) p = k a p'.
Proof. intros H. rewrite bind_unfold, H. reflexivity. Qed.

Lemma bind_exited (c : Run A) (k : A -> Run B) p st p' :
  c p = (Exited st, p') -> (c ≫= k) p = (Exited st, p').
Proof. intros H. rewrite bind_unfold, H. reflexivity. Qed.
End monad.

Lemma for_each_app {A : Type} (l1 l2 : list A) (body : A -> Run unit) p :
  for_each (l1 ++ l2) body p = (for_each l1 body;; for_each l2 body) p.
Proof.
  revert p. induction l1 as [|x l1 IH]; intros p; simpl.
  - reflexivity.
  - rewrite !bind_unfold. destruct (body x p) as [[[]|st] p1]; [|reflexivity].
    rewrite IH. reflexivity.
Qed.

Lemma visited_app t1 t2 : visited (t1 ++ t2) = visited t1 ++ visited t2.
Proof. apply omap_app. Qed.

Lemma fatal_messages_app t1 t2 :
  fatal_messages (t1 ++ t2) = fatal_messages t1 ++ fatal_messages t2.
Proof. apply omap_app. Qed.

Lemma stores_app t1 t2 : stores (t1 ++ t2) = stores t1 ++ stores t2.
Proof. apply omap_app. Qed.

Lemma visited_calls dbs : visited (calls dbs) = (fun d => _name d.2) <$> dbs.
Proof. induction dbs as [|d dbs IH]; simpl; [reflexivity|]. f_equal. exact IH. Qed.

Lemma fatal_messages_calls dbs : fatal_messages (calls dbs) = [].
Proof. induction dbs as [|d dbs IH]; simpl; [reflexivity|exact IH]. Qed.

Lemma stores_calls dbs : stores (calls dbs) = [].
Proof. induction dbs as [|d dbs IH]; simpl; [reflexivity|exact IH]. Qed.

Lemma existsb_calls (q : Event -> bool) dbs :
  (forall db, q (EvUpgradeDatabase db) = false) -> existsb q (calls dbs) = false.
Proof.
  intros Hq. induction dbs as [|d dbs IH]; simpl; [reflexivity|].
  rewrite Hq. exact IH.
Qed.

(** The loop body, by the answer of the script. *)
Lemma upgradeOne_eq f srv lc d p :
  upgradeOne f srv lc d p =
  let p1 := with_global
              (with_trace p (trace p ++ [EvUpgradeDatabase (_name d.2)]))
              (answer f srv d (global p)).2 in
  if (answer f srv d (global p)).1
  then (Returned tt, p1)
  else on_failure f lc d.2 p1.
Proof.
  unfold upgradeOne, on_failure, answer, upgrade_args.
  rewrite bind_unfold. simpl.
  rewrite bind_unfold. unfold call_TRI_UpgradeDatabase at 1. simpl.
  destruct (TRI_UpgradeDatabase srv d.2 _) as [[] g']; reflexivity.
Qed.

Ltac run_all :=
  cbv [with_trace with_ints with_slot with_sandbox with_global];
  cbn [trace ints current_context saved_contexts held_sandbox global fst snd
       negb andb].

Ltac run_step :=
  cbn [trace ints current_context saved_contexts held_sandbox global
       with_trace with_ints with_slot with_sandbox with_global fst snd].

(** The failure branch always terminates the process; it touches neither the
    integers, nor the global object, nor the sandbox held. *)
Lemma on_failure_exits f lc db p :
  exists p',
    on_failure f lc db p = (Exited EXIT_FAILURE, p') /\
    trace p' = trace p ++ failure_events f lc db (global p) /\
    ints p' = ints p /\ global p' = global p /\
    held_sandbox p' = held_sandbox p /\
    (started (global p) = false ->
     current_context p' = current_context p /\
     saved_contexts p' = saved_contexts p).
Proof.
  unfold on_failure, failure_events, failure_message, started.
  rewrite bind_unfold. unfold Global_Has at 1.
  destruct (bool_decide (is_Some (global p !! "UPGRADE_STARTED"))) eqn:Hs.
  - destruct (_upgrade f); eexists; (split; [reflexivity|]);
      unfold Context_Exit;
      destruct (saved_contexts p) as [|prior rest];
      try destruct (bool_decide (current_context p = Some lc));
      run_step; rewrite <- ?app_assoc; repeat split; try reflexivity;
      discriminate.
  - eexists; split; [reflexivity|]. run_step.
    rewrite <- ?app_assoc. repeat split; reflexivity.
Qed.

(** When the script succeeds for every database, the loop completes: it has
    called the script once for each database, in order, and done nothing
    else. *)
Lemma sweep_completes f srv lc dbs p g' :
  all_succeed f srv dbs (global p) = Some g' ->
  for_each dbs (upgradeOne f srv lc) p =
  (Returned tt, with_global (with_trace p (trace p ++ calls dbs)) g').
Proof.
  revert p. induction dbs as [|d dbs IH]; intros p H; simpl in H.
  - injection H as <-. simpl. rewrite app_nil_r. destruct p; reflexivity.
  - destruct (answer f srv d (global p)).1 eqn:Hok; [|discriminate].
    cbn [for_each]. rewrite bind_unfold, upgradeOne_eq. cbv zeta. rewrite Hok.
    rewrite IH by exact H. run_step.
    unfold calls. rewrite fmap_cons, <- app_assoc. reflexivity.
Qed.

(** When the script fails for a database after having succeeded for those
    before it, the loop runs the failure branch right after that call. *)
Lemma sweep_stops f srv lc pre d post p g :
  all_succeed f srv pre (global p) = Some g ->
  (answer f srv d g).1 = false ->
  for_each (pre ++ d :: post) (upgradeOne f srv lc) p =
  on_failure f lc d.2
    (with_global (with_trace p (trace p ++ calls (pre ++ [d])))
       (answer f srv d g).2).
Proof.
  revert p. induction pre as [|x pre IH]; intros p Hpre Hd; simpl in Hpre.
  - injection Hpre as <-. cbn [app for_each].
    rewrite bind_unfold, upgradeOne_eq. cbv zeta. rewrite Hd.
    unfold calls. cbn [fmap list_fmap].
    destruct (on_failure_exits f lc d.2
      (with_global (with_trace p (trace p ++ [EvUpgradeDatabase (_name d.2)]))
         (answer f srv d (global p)).2)) as (p' & E & _).
    rewrite E. reflexivity.
  - destruct (answer f srv x (global p)).1 eqn:Hok; [|discriminate].
    rewrite <- app_comm_cons. cbn [for_each].
    rewrite bind_unfold, upgradeOne_eq. cbv zeta. rewrite Hok.
    rewrite IH by assumption. run_step.
    unfold calls. rewrite <- app_comm_cons, fmap_cons, <- app_assoc.
    reflexivity.
Qed.

(** Either the script succeeds for every database, or there is a first
    database for which it fails. *)
Lemma all_succeed_or_first_failure f srv dbs g0 :
  (exists g', all_succeed f srv dbs g0 = Some g') \/
  (exists pre d post g,
      dbs = pre ++ d :: post /\
      all_succeed f srv pre g0 = Some g /\
      (answer f srv d g).1 = false).
Proof.
  revert g0. induction dbs as [|d dbs IH]; intros g0.
  - left. exists g0. reflexivity.
  - destruct (answer f srv d g0).1 eqn:Hok.
    + destruct (IH (answer f srv d g0).2) as [[g' H]|(pre & d' & post & g & E & H1 & H2)].
      * left. exists g'. simpl. rewrite Hok. exact H.
      * right. exists (d :: pre), d', post, g. subst dbs. simpl. rewrite Hok.
        repeat split; assumption.
    + right. exists [], d, dbs, g0. repeat split; assumption.
Qed.

Lemma upgradeDatabase_completes f srv p g' :
  all_succeed f srv (_databases srv) (global p) = Some g' ->
  exists p',
    upgradeDatabase f srv p = (Returned tt, p') /\
    trace p' = trace p ++ sweep_prologue srv ++ calls (_databases srv) ++
               sweep_epilogue f /\
    ints p' = (if _upgrade f then <[_result f := EXIT_SUCCESS]> (ints p)
               else ints p) /\
    current_context p' = current_context p /\
    saved_contexts p' = saved_contexts p /\
    held_sandbox p' = None /\
    global p' = g'.
Proof.
  intros H. destruct p as [t i c s h g]. cbn [global] in H.
  cbv [upgradeDatabase Context_Scope mbind Run_bind mret Run_ret LOG emit
       enterContext Context_Enter _id].
  run_all.
  erewrite sweep_completes by (run_all; exact H).
  run_all. cbv [Context_Exit exitContext store_int _id]. run_all.
  change (bool_decide (Some 0%Z = Some 0%Z)) with true. run_all.
  change (bool_decide (Some 0%Z = Some 0%Z)) with true. run_all.
  unfold sweep_prologue, sweep_epilogue.
  destruct (_upgrade f); eexists; (split; [reflexivity|]); run_all;
    repeat split; rewrite <- ?app_assoc; reflexivity.
Qed.

Lemma upgradeDatabase_stops f srv p pre d post g :
  _databases srv = pre ++ d :: post ->
  all_succeed f srv pre (global p) = Some g ->
  (answer f srv d g).1 = false ->
  exists p',
    upgradeDatabase f srv p = (Exited EXIT_FAILURE, p') /\
    trace p' = trace p ++ sweep_prologue srv ++ calls (pre ++ [d]) ++
               failure_events f 0 d.2 (answer f srv d g).2 /\
    ints p' = ints p /\
    held_sandbox p' = Some (mk_dealer_context 0) /\
    global p' = (answer f srv d g).2 /\
    (started (answer f srv d g).2 = false ->
     current_context p' = Some 0%Z /\
     saved_contexts p' = Some 0%Z :: current_context p :: saved_contexts p).
Proof.
  intros E Hpre Hd. destruct p as [t i c s h g0]. cbn [global] in Hpre.
  cbv [upgradeDatabase Context_Scope mbind Run_bind mret Run_ret LOG emit
       enterContext Context_Enter _id].
  run_all. rewrite E.
  erewrite sweep_stops; [|run_all; exact Hpre|exact Hd].
  run_all.
  match goal with
  | |- context [on_failure f 0 d.2 ?q] =>
      destruct (on_failure_exits f 0 d.2 q) as (p' & E' & Ht & Hi & Hg & Hh & Hslot)
  end.
  rewrite E'. exists p'. split; [reflexivity|].
  revert Ht Hi Hg Hh Hslot. run_all. intros Ht Hi Hg Hh Hslot.
  rewrite Ht, Hi, Hg, Hh. unfold sweep_prologue.
  repeat split; rewrite <- ?app_assoc; try reflexivity; apply Hslot; assumption.
Qed.

Lemma start_wal_fails f srv p :
  wal_open srv = false ->
  start f srv p =
  (Exited EXIT_FAILURE,
   with_trace p
     (trace p ++ start_prologue srv ++
      [EvLog FATAL None "Unable to finish WAL recovery procedure";
       EvExit EXIT_FAILURE])).
Proof.
  intros Hw. destruct p as [t i c s h g].
  cbv [start start_prologue LogfileManager_open mbind Run_bind mret Run_ret
       LOG_TOPIC LOG emit FATAL_ERROR_EXIT].
  rewrite Hw. run_all. rewrite <- !app_assoc. reflexivity.
Qed.

Lemma start_without_check f srv p :
  wal_open srv = true -> _upgradeCheck f = false ->
  start f srv p =
  (Returned tt,
   with_trace p
     (trace p ++ start_prologue srv ++
      (if _upgrade f then [EvBeginShutdown] else []))).
Proof.
  intros Hw Hc. destruct p as [t i c s h g].
  cbv [start start_prologue LogfileManager_open mbind Run_bind mret Run_ret
       LOG_TOPIC LOG emit FATAL_ERROR_EXIT beginShutdown].
  rewrite Hw, Hc. run_all.
  destruct (_upgrade f); run_all; rewrite <- ?app_assoc, ?app_nil_r;
    reflexivity.
Qed.

Lemma start_with_check f srv p :
  wal_open srv = true -> _upgradeCheck f = true ->
  start f srv p =
  (upgradeDatabase f srv;; if _upgrade f then beginShutdown else mret tt)
    (with_trace p (trace p ++ start_prologue srv)).
Proof.
  intros Hw Hc. destruct p as [t i c s h g].
  cbv [start start_prologue LogfileManager_open LOG_TOPIC emit].
  rewrite !bind_unfold. rewrite Hw, Hc. run_all. rewrite <- !app_assoc.
  reflexivity.
Qed.

Lemma start_completes f srv p g' :
  wal_open srv = true -> _upgradeCheck f = true ->
  all_succeed f srv (_databases srv) (global p) = Some g' ->
  exists p',
    start f srv p = (Returned tt, p') /\
    trace p' = trace p ++ start_prologue srv ++ sweep_prologue srv ++
               calls (_databases srv) ++ sweep_epilogue f ++
               (if _upgrade f then [EvBeginShutdown] else []) /\
    ints p' = (if _upgrade f then <[_result f := EXIT_SUCCESS]> (ints p)
               else ints p) /\
    current_context p' = current_context p /\
    saved_contexts p' = saved_contexts p /\
    held_sandbox p' = None /\
    global p' = g'.
Proof.
  intros Hw Hc H. rewrite start_with_check by assumption.
  destruct (upgradeDatabase_completes f srv
              (with_trace p (trace p ++ start_prologue srv)) g' H)
    as (p1 & E & Ht & Hi & Hcur & Hsav & Hh & Hg).
  rewrite (bind_returned _ _ _ _ _ E).
  revert Ht Hi Hcur Hsav Hh Hg. run_all. intros Ht Hi Hcur Hsav Hh Hg.
  destruct (_upgrade f).
  - eexists. split; [reflexivity|].
    cbv [beginShutdown emit]. run_all. rewrite Ht, <- !app_assoc.
    repeat split; assumption.
  - exists p1. split; [reflexivity|]. rewrite Ht, <- !app_assoc, app_nil_r.
    repeat split; assumption.
Qed.

Lemma start_stops f srv p pre d post g :
  wal_open srv = true -> _upgradeCheck f = true ->
  _databases srv = pre ++ d :: post ->
  all_succeed f srv pre (global p) = Some g ->
  (answer f srv d g).1 = false ->
  exists p',
    start f srv p = (Exited EXIT_FAILURE, p') /\
    trace p' = trace p ++ start_prologue srv ++ sweep_prologue srv ++
               calls (pre ++ [d]) ++
               failure_events f 0 d.2 (answer f srv d g).2 /\
    ints p' = ints p /\
    held_sandbox p' = Some (mk_dealer_context 0) /\
    global p' = (answer f srv d g).2.
Proof.
  intros Hw Hc E Hpre Hd. rewrite start_with_check by assumption.
  destruct (upgradeDatabase_stops f srv
              (with_trace p (trace p ++ start_prologue srv)) pre d post g
              E Hpre Hd)
    as (p1 & E1 & Ht & Hi & Hh & Hg & _).
  rewrite (bind_exited _ _ _ _ _ E1). exists p1. split; [reflexivity|].
  revert Ht Hi Hh Hg. run_all. intros Ht Hi Hh Hg.
  rewrite Ht, <- !app_assoc. repeat split; assumption.
Qed.

Lemma performed_app p p' evs :
  trace p' = trace p ++ evs -> performed p p' = evs.
Proof. intros E. unfold performed. rewrite E. apply drop_app_length. Qed.

(** Validation of the conflicting configuration. *)
Lemma validateOptions_conflict f p :
  _upgrade f = true -> _upgradeCheck f = false ->
  validateOptions f p =
  (Exited EXIT_FAILURE,
   with_trace p
     (trace p ++
      [EvLog TRACE (Some Logger_STARTUP) "Upgrade::validateOptions";
       EvLog FATAL None conflict_message;
       EvExit EXIT_FAILURE])).
Proof.
  intros Hu Hc. destruct p as [t i c s h g].
  cbv [validateOptions mbind Run_bind mret Run_ret LOG_TOPIC LOG emit
       FATAL_ERROR_EXIT].
  rewrite Hu, Hc. run_all. rewrite <- !app_assoc. reflexivity.
Qed.

(** Validation of a configuration without upgrade. *)
Lemma validateOptions_check_only f p :
  _upgrade f = false ->
  validateOptions f p =
  (Returned tt,
   with_trace p
     (trace p ++
      [EvLog TRACE (Some Logger_STARTUP) "Upgrade::validateOptions";
       EvLog TRACE None
         "executing upgrade check: not disabling server features"])).
Proof.
  intros Hu. destruct p as [t i c s h g].
  cbv [validateOptions mbind Run_bind mret Run_ret LOG_TOPIC LOG emit
       FATAL_ERROR_EXIT].
  rewrite Hu. run_all. rewrite <- !app_assoc. reflexivity.
Qed.

(** * The behaviour of the feature *)

(** C2: a configuration with upgrade=true and upgrade-check=false is rejected
    by option validation with a fatal exit; the run of the feature
    (validation, then start) ends there, so the write-ahead log is not
    opened and the upgrade script is called for no database. *)
Theorem validation_rejects_upgrade_without_check f srv p :
  _upgrade f = true -> _upgradeCheck f = false ->
  let rejected :=
    with_trace p
      (trace p ++
       [EvLog TRACE (Some Logger_STARTUP) "Upgrade::validateOptions";
        EvLog FATAL None conflict_message;
        EvExit EXIT_FAILURE]) in
  validateOptions f p = (Exited EXIT_FAILURE, rejected) /\
  startup f srv p = (Exited EXIT_FAILURE, rejected) /\
  existsb is_wal_open (performed p rejected) = false /\
  visited (performed p rejected) = [].
Proof.
  intros Hu Hc rejected.
  assert (Hv : validateOptions f p = (Exited EXIT_FAILURE, rejected))
    by (apply validateOptions_conflict; assumption).
  split; [exact Hv|]. split.
  - unfold startup. apply bind_exited. exact Hv.
  - subst rejected. erewrite performed_app by (run_all; reflexivity).
    split; reflexivity.
Qed.

Lemma validation_rejects_upgrade_without_check_witness :
  let f := mk_feature true false 16%N ["Daemon"] in
  let srv := mk_server true system_db three_databases script_succeeds in
  let rejected :=
    with_trace fresh_process
      (trace fresh_process ++
       [EvLog TRACE (Some Logger_STARTUP) "Upgrade::validateOptions";
        EvLog FATAL None conflict_message;
        EvExit EXIT_FAILURE]) in
  validateOptions f fresh_process = (Exited EXIT_FAILURE, rejected) /\
  startup f srv fresh_process = (Exited EXIT_FAILURE, rejected) /\
  existsb is_wal_open (performed fresh_process rejected) = false /\
  visited (performed fresh_process rejected) = [].
Proof.
  exact (validation_rejects_upgrade_without_check
           (mk_feature true false 16%N ["Daemon"])
           (mk_server true system_db three_databases script_succeeds)
           fresh_process eq_refl eq_refl).
Defined.

(** C6: when the write-ahead log fails to open, [start] logs a fatal message
    and terminates the process; [upgradeDatabase] is not entered and the
    upgrade script is called for no database. *)
Theorem wal_failure_is_fatal f srv p :
  wal_open srv = false ->
  exists p',
    start f srv p = (Exited EXIT_FAILURE, p') /\
    performed p p' =
      [EvLog TRACE (Some Logger_STARTUP) "Upgrade::start";
       EvWalOpen false;
       EvLog FATAL None "Unable to finish WAL recovery procedure";
       EvExit EXIT_FAILURE] /\
    visited (performed p p') = [] /\
    (EvLog TRACE None "starting database init/upgrade" ∉ performed p p') /\
    held_sandbox p' = held_sandbox p /\
    ints p' = ints p.
Proof.
  intros Hw. eexists. split; [apply start_wal_fails; exact Hw|].
  erewrite performed_app by (run_all; reflexivity).
  unfold start_prologue. rewrite Hw. cbn [app].
  repeat split; try reflexivity.
  rewrite !elem_of_cons, elem_of_nil. intros [H|[H|[H|[H|[]]]]]; discriminate.
Qed.

Lemma wal_failure_is_fatal_witness :
  exists p',
    start (mk_feature true true 16%N [])
          (mk_server false system_db three_databases script_succeeds)
          busy_process = (Exited EXIT_FAILURE, p') /\
    performed busy_process p' =
      [EvLog TRACE (Some Logger_STARTUP) "Upgrade::start";
       EvWalOpen false;
       EvLog FATAL None "Unable to finish WAL recovery procedure";
       EvExit EXIT_FAILURE] /\
    visited (performed busy_process p') = [] /\
    (EvLog TRACE None "starting database init/upgrade"
       ∉ performed busy_process p') /\
    held_sandbox p' = held_sandbox busy_process /\
    ints p' = ints busy_process.
Proof.
  exact (wal_failure_is_fatal (mk_feature true true 16%N [])
           (mk_server false system_db three_databases script_succeeds)
           busy_process eq_refl).
Defined.

(** C9: with upgrade-check=false, a configuration that passes validation has
    upgrade=false, and [start] then only opens the write-ahead log: the
    upgrade script is called for no database, nothing is stored through
    [_result], and no shutdown is requested. *)
Theorem start_without_check_only_opens_wal f srv p0 p :
  _upgradeCheck f = false ->
  validateOptions f p0 = (Returned tt, p) ->
  let run := start f srv p in
  _upgrade f = false /\
  run.1 = (if wal_open srv then Returned tt else Exited EXIT_FAILURE) /\
  performed p run.2 =
    [EvLog TRACE (Some Logger_STARTUP) "Upgrade::start";
     EvWalOpen (wal_open srv)] ++
    (if wal_open srv then []
     else [EvLog FATAL None "Unable to finish WAL recovery procedure";
           EvExit EXIT_FAILURE]) /\
  visited (performed p run.2) = [] /\
  stores (performed p run.2) = [] /\
  ints run.2 = ints p /\
  existsb is_shutdown (performed p run.2) = false /\
  held_sandbox run.2 = held_sandbox p /\
  global run.2 = global p.
Proof.
  intros Hc Hv run. subst run.
  assert (Hu : _upgrade f = false).
  { destruct (_upgrade f) eqn:Hu; [|reflexivity].
    rewrite (validateOptions_conflict f p0 Hu Hc) in Hv. discriminate. }
  split; [exact Hu|].
  destruct (wal_open srv) eqn:Hw.
  - rewrite start_without_check by assumption. rewrite Hu. cbn [fst snd].
    erewrite performed_app by (run_all; reflexivity).
    unfold start_prologue. rewrite Hw. repeat split; reflexivity.
  - rewrite start_wal_fails by assumption. cbn [fst snd].
    erewrite performed_app by (run_all; reflexivity).
    unfold start_prologue. rewrite Hw. repeat split; reflexivity.
Qed.

Lemma start_without_check_only_opens_wal_witness :
  let f := mk_feature false false 16%N [] in
  let srv := mk_server true system_db three_databases script_succeeds in
  let p := (validateOptions f busy_process).2 in
  let run := start f srv p in
  _upgrade f = false /\
  run.1 = (if wal_open srv then Returned tt else Exited EXIT_FAILURE) /\
  performed p run.2 =
    [EvLog TRACE (Some Logger_STARTUP) "Upgrade::start";
     EvWalOpen (wal_open srv)] ++
    (if wal_open srv then []
     else [EvLog FATAL None "Unable to finish WAL recovery procedure";
           EvExit EXIT_FAILURE]) /\
  visited (performed p run.2) = [] /\
  stores (performed p run.2) = [] /\
  ints run.2 = ints p /\
  existsb is_shutdown (performed p run.2) = false /\
  held_sandbox run.2 = held_sandbox p /\
  global run.2 = global p.
Proof.
  exact (start_without_check_only_opens_wal
           (mk_feature false false 16%N [])
           (mk_server true system_db three_databases script_succeeds)
           busy_process
           (validateOptions (mk_feature false false 16%N []) busy_process).2
           eq_refl eq_refl).
Defined.

(** C4: with upgrade=true, when the upgrade script succeeds for every known
    database, [start] returns; once the script has been called for the last
    database and the sandbox has been left, it stores EXIT_SUCCESS through
    [_result] and then asks the server to shut down. *)
Theorem successful_upgrade_sets_result_and_shuts_down f srv p g' :
  _upgrade f = true -> _upgradeCheck f = true -> wal_open srv = true ->
  all_succeed f srv (_databases srv) (global p) = Some g' ->
  exists p' sweep,
    start f srv p = (Returned tt, p') /\
    ints p' = <[_result f := EXIT_SUCCESS]> (ints p) /\
    ints p' !! _result f = Some EXIT_SUCCESS /\
    performed p p' =
      sweep ++
      [EvStoreInt (_result f) EXIT_SUCCESS;
       EvLog INFO None "database upgrade passed";
       EvLog TRACE None "finished database init/upgrade";
       EvBeginShutdown] /\
    visited sweep = names (_databases srv) /\
    stores sweep = [] /\
    existsb is_shutdown sweep = false.
Proof.
  intros Hu Hc Hw H.
  destruct (start_completes f srv p g' Hw Hc H)
    as (p' & E & Ht & Hi & _).
  rewrite Hu in Ht, Hi.
  exists p',
    (start_prologue srv ++ sweep_prologue srv ++ calls (_databases srv) ++
     [EvContextExit 0; EvContextExit 0; EvExitContext 0]).
  split; [exact E|]. split; [exact Hi|]. split.
  { rewrite Hi. apply lookup_insert_eq. }
  split.
  { apply performed_app. rewrite Ht. unfold sweep_epilogue. rewrite Hu.
    rewrite <- !app_assoc. reflexivity. }
  rewrite !visited_app, !stores_app, !existsb_app, visited_calls, stores_calls.
  rewrite existsb_calls by reflexivity.
  repeat split; try reflexivity. cbn. apply app_nil_r.
Qed.

Lemma successful_upgrade_sets_result_and_shuts_down_witness :
  let f := mk_feature true true 16%N ["Daemon"] in
  let srv := mk_server true system_db three_databases script_succeeds in
  exists p' sweep,
    start f srv busy_process = (Returned tt, p') /\
    ints p' = <[_result f := EXIT_SUCCESS]> (ints busy_process) /\
    ints p' !! _result f = Some EXIT_SUCCESS /\
    performed busy_process p' =
      sweep ++
      [EvStoreInt (_result f) EXIT_SUCCESS;
       EvLog INFO None "database upgrade passed";
       EvLog TRACE None "finished database init/upgrade";
       EvBeginShutdown] /\
    visited sweep = names (_databases srv) /\
    stores sweep = [] /\
    existsb is_shutdown sweep = false.
Proof.
  exact (successful_upgrade_sets_result_and_shuts_down
           (mk_feature true true 16%N ["Daemon"])
           (mk_server true system_db three_databases script_succeeds)
           busy_process _ eq_refl eq_refl eq_refl eq_refl).
Defined.

(** C5: with upgrade=false and upgrade-check=true, when the upgrade script
    succeeds for every database of the snapshot, the script is called once
    for each database of the snapshot, in enumeration order, and [start]
    returns without asking for a shutdown. *)
Theorem successful_check_visits_all_and_continues f srv p g' :
  _upgrade f = false -> _upgradeCheck f = true -> wal_open srv = true ->
  all_succeed f srv (_databases srv) (global p) = Some g' ->
  exists p',
    start f srv p = (Returned tt, p') /\
    visited (performed p p') = names (_databases srv) /\
    existsb is_shutdown (performed p p') = false /\
    fatal_messages (performed p p') = [] /\
    stores (performed p p') = [] /\
    ints p' = ints p.
Proof.
  intros Hu Hc Hw H.
  destruct (start_completes f srv p g' Hw Hc H)
    as (p' & E & Ht & Hi & _).
  rewrite Hu in Ht, Hi.
  exists p'. split; [exact E|].
  rewrite (performed_app _ _ _ Ht). unfold sweep_epilogue. rewrite Hu.
  rewrite !visited_app, !fatal_messages_app, !stores_app, !existsb_app.
  rewrite visited_calls, stores_calls, fatal_messages_calls.
  rewrite existsb_calls by reflexivity.
  repeat split; try reflexivity; try exact Hi. cbn. apply app_nil_r.
Qed.

Lemma successful_check_visits_all_and_continues_witness :
  let f := mk_feature false true 16%N [] in
  let srv := mk_server true system_db three_databases script_succeeds in
  exists p',
    start f srv busy_process = (Returned tt, p') /\
    visited (performed busy_process p') = names (_databases srv) /\
    existsb is_shutdown (performed busy_process p') = false /\
    fatal_messages (performed busy_process p') = [] /\
    stores (performed busy_process p') = [] /\
    ints p' = ints busy_process.
Proof.
  exact (successful_check_visits_all_and_continues
           (mk_feature false true 16%N [])
           (mk_server true system_db three_databases script_succeeds)
           busy_process _ eq_refl eq_refl eq_refl eq_refl).
Defined.

(** C3: with upgrade=true, when the upgrade script fails for a database
    after having started (it returns false and the UPGRADE_STARTED marker is
    set), having succeeded for the databases before it, the process logs
    the fatal message that names this database and exits; the script has
    been called for the databases up to this one and for none after it. *)
Theorem failed_upgrade_stops_the_sweep f srv p pre d post g :
  _upgrade f = true -> _upgradeCheck f = true -> wal_open srv = true ->
  _databases srv = pre ++ d :: post ->
  all_succeed f srv pre (global p) = Some g ->
  (answer f srv d g).1 = false ->
  started (answer f srv d g).2 = true ->
  exists p' before,
    start f srv p = (Exited EXIT_FAILURE, p') /\
    performed p p' =
      before ++
      [EvUpgradeDatabase (_name d.2);
       EvContextExit 0;
       EvLog FATAL None
         ("Database '" +:+ _name d.2 +:+
          "' upgrade failed. Please inspect the logs from the upgrade procedure");
       EvExit EXIT_FAILURE] /\
    visited before = names pre /\
    visited (performed p p') = names pre ++ [_name d.2] /\
    fatal_messages (performed p p') = [upgrade_failed_message (_name d.2)] /\
    existsb is_shutdown (performed p p') = false /\
    stores (performed p p') = [].
Proof.
  intros Hu Hc Hw E Hpre Hd Hs.
  destruct (start_stops f srv p pre d post g Hw Hc E Hpre Hd)
    as (p' & E' & Ht & _).
  unfold failure_events, failure_message in Ht. rewrite Hs, Hu in Ht.
  exists p', (start_prologue srv ++ sweep_prologue srv ++ calls pre).
  split; [exact E'|].
  rewrite (performed_app _ _ _ Ht). unfold calls. rewrite fmap_app.
  fold (calls pre). cbn [fmap list_fmap].
  split. { rewrite <- !app_assoc. reflexivity. }
  rewrite !visited_app, !fatal_messages_app, !stores_app, !existsb_app.
  rewrite visited_calls, stores_calls, fatal_messages_calls.
  rewrite existsb_calls by reflexivity.
  unfold names. cbn. rewrite ?app_nil_r. repeat split; reflexivity.
Qed.

Lemma failed_upgrade_stops_the_sweep_witness :
  let f := mk_feature true true 16%N [] in
  let srv := mk_server true system_db three_databases script_fails_orders in
  let d := ("orders", mk_vocbase "orders") in
  exists p' before,
    start f srv busy_process = (Exited EXIT_FAILURE, p') /\
    performed busy_process p' =
      before ++
      [EvUpgradeDatabase (_name d.2);
       EvContextExit 0;
       EvLog FATAL None
         ("Database '" +:+ _name d.2 +:+
          "' upgrade failed. Please inspect the logs from the upgrade procedure");
       EvExit EXIT_FAILURE] /\
    visited before = names [("_system", system_db)] /\
    visited (performed busy_process p') =
      names [("_system", system_db)] ++ [_name d.2] /\
    fatal_messages (performed busy_process p') =
      [upgrade_failed_message (_name d.2)] /\
    existsb is_shutdown (performed busy_process p') = false /\
    stores (performed busy_process p') = [].
Proof.
  exact (failed_upgrade_stops_the_sweep
           (mk_feature true true 16%N [])
           (mk_server true system_db three_databases script_fails_orders)
           busy_process
           [("_system", system_db)] ("orders", mk_vocbase "orders")
           [("users", mk_vocbase "users")] _
           eq_refl eq_refl eq_refl eq_refl eq_refl eq_refl eq_refl).
Defined.

Lemma javascript_error_is_not_a_database_message db :
  upgrade_failed_message db <> javascript_error_message /\
  needs_upgrade_message db <> javascript_error_message.
Proof. split; discriminate. Qed.

(** C1, as the code has it: when the upgrade script fails for a database,
    having succeeded for the databases before it, the process exits fatally
    with exactly one fatal message.  When the UPGRADE_STARTED marker is set,
    the message is "needs upgrade. Please start the server with the
    --upgrade option" if upgrade was not requested and "upgrade failed" if
    it was.  When the marker is absent, the message is the generic
    "JavaScript error during server start", and this message is logged in
    that case only. *)
Theorem failure_message_by_marker f srv p pre d post g :
  _upgradeCheck f = true -> wal_open srv = true ->
  _databases srv = pre ++ d :: post ->
  all_succeed f srv pre (global p) = Some g ->
  (answer f srv d g).1 = false ->
  exists p',
    start f srv p = (Exited EXIT_FAILURE, p') /\
    fatal_messages (performed p p') =
      [if started (answer f srv d g).2
       then if _upgrade f
            then upgrade_failed_message (_name d.2)
            else needs_upgrade_message (_name d.2)
       else javascript_error_message] /\
    (In javascript_error_message (fatal_messages (performed p p')) <->
     started (answer f srv d g).2 = false).
Proof.
  intros Hc Hw E Hpre Hd.
  destruct (start_stops f srv p pre d post g Hw Hc E Hpre Hd)
    as (p' & E' & Ht & _).
  exists p'. split; [exact E'|].
  rewrite (performed_app _ _ _ Ht).
  rewrite !fatal_messages_app, fatal_messages_calls.
  unfold failure_events, failure_message.
  destruct (javascript_error_is_not_a_database_message (_name d.2)) as [N1 N2].
  destruct (started (answer f srv d g).2); [destruct (_upgrade f)|]; cbn;
    (split; [reflexivity|]); split; intros H;
    try discriminate; try (left; reflexivity);
    destruct H as [H|[]]; congruence.
Qed.

Lemma failure_message_by_marker_witness :
  let f := mk_feature false true 16%N [] in
  let srv := mk_server true system_db three_databases script_fails_orders in
  let d := ("orders", mk_vocbase "orders") in
  let g := <["UPGRADE_STARTED" := JsBoolean true]>
             (<["UPGRADE_ARGS" := upgrade_args f]> ∅) in
  exists p',
    start f srv busy_process = (Exited EXIT_FAILURE, p') /\
    fatal_messages (performed busy_process p') =
      [if started (answer f srv d g).2
       then if _upgrade f
            then upgrade_failed_message (_name d.2)
            else needs_upgrade_message (_name d.2)
       else javascript_error_message] /\
    (In javascript_error_message (fatal_messages (performed busy_process p')) <->
     started (answer f srv d g).2 = false).
Proof.
  exact (failure_message_by_marker
           (mk_feature false true 16%N [])
           (mk_server true system_db three_databases script_fails_orders)
           busy_process
           [("_system", system_db)] ("orders", mk_vocbase "orders")
           [("users", mk_vocbase "users")] _
           eq_refl eq_refl eq_refl eq_refl eq_refl).
Defined.

(** C1 fails as stated: upgrade is not requested, the script fails for the
    only database without having started (the marker is absent), and the
    fatal message is the generic script-error message, not the "please
    start with upgrade option" one. *)
Lemma unstarted_failure_logs_javascript_error :
  let f := mk_feature false true 16%N [] in
  let srv := mk_server true system_db [("_system", system_db)] script_broken in
  let d := ("_system", system_db) in
  let run := start f srv fresh_process in
  (answer f srv d (global fresh_process)).1 = false /\
  started (answer f srv d (global fresh_process)).2 = false /\
  run.1 = Exited EXIT_FAILURE /\
  fatal_messages (trace run.2) = ["JavaScript error during server start"] /\
  ~ In (needs_upgrade_message "_system") (fatal_messages (trace run.2)).
Proof.
  vm_compute. repeat split; try reflexivity.
  intros [H|[]]. discriminate.
Qed.

(** C7, as the code has it: on every path on which the sweep returns, the
    two entries into the sandbox context have been exited and the sandbox
    has been given back to the dealer after the last call of the script, and
    the execution unit's context slot holds what it held before the sweep. *)
Theorem returning_sweep_restores_context f srv p :
  (upgradeDatabase f srv p).1 = Returned tt ->
  let p' := (upgradeDatabase f srv p).2 in
  current_context p' = current_context p /\
  saved_contexts p' = saved_contexts p /\
  held_sandbox p' = None /\
  exists rest,
    performed p p' =
      sweep_prologue srv ++ calls (_databases srv) ++
      [EvContextExit 0; EvContextExit 0; EvExitContext 0] ++ rest /\
    visited rest = [].
Proof.
  intros H.
  destruct (all_succeed_or_first_failure f srv (_databases srv) (global p))
    as [[g' Hall]|(pre & d & post & g & E & Hpre & Hd)].
  - destruct (upgradeDatabase_completes f srv p g' Hall)
      as (q & Eq & Ht & _ & Hcur & Hsav & Hh & _).
    rewrite Eq. cbn [snd].
    repeat split; try assumption.
    exists ((if _upgrade f
             then [EvStoreInt (_result f) EXIT_SUCCESS;
                   EvLog INFO None "database upgrade passed"]
             else []) ++
            [EvLog TRACE None "finished database init/upgrade"]).
    split.
    + apply performed_app. rewrite Ht. unfold sweep_epilogue.
      rewrite <- ?app_assoc. reflexivity.
    + destruct (_upgrade f); reflexivity.
  - destruct (upgradeDatabase_stops f srv p pre d post g E Hpre Hd)
      as (q & Eq & _).
    rewrite Eq in H. discriminate.
Qed.

Lemma returning_sweep_restores_context_witness :
  let f := mk_feature true true 16%N [] in
  let srv := mk_server true system_db three_databases script_succeeds in
  let p' := (upgradeDatabase f srv busy_process).2 in
  current_context p' = current_context busy_process /\
  saved_contexts p' = saved_contexts busy_process /\
  held_sandbox p' = None /\
  exists rest,
    performed busy_process p' =
      sweep_prologue srv ++ calls (_databases srv) ++
      [EvContextExit 0; EvContextExit 0; EvExitContext 0] ++ rest /\
    visited rest = [].
Proof.
  refine (returning_sweep_restores_context
            (mk_feature true true 16%N [])
            (mk_server true system_db three_databases script_succeeds)
            busy_process _).
  vm_compute. reflexivity.
Defined.

(** C7 fails as stated: no context is entered and no sandbox is held when
    the sweep begins; the script fails for "orders" after having started;
    the process exits with the sandbox still held (the dealer's exitContext
    is never called) and with context 0 still in the slot, which was empty
    before the sweep. *)
Lemma fatal_exit_leaves_sandbox_entered :
  let f := mk_feature true true 16%N [] in
  let srv := mk_server true system_db three_databases script_fails_orders in
  let run := upgradeDatabase f srv fresh_process in
  run.1 = Exited EXIT_FAILURE /\
  current_context fresh_process = None /\
  held_sandbox fresh_process = None /\
  current_context run.2 = Some 0%Z /\
  saved_contexts run.2 = [None] /\
  held_sandbox run.2 = Some (mk_dealer_context 0) /\
  existsb is_exit_context (trace run.2) = false /\
  trace run.2 =
    [EvLog TRACE None "starting database init/upgrade";
     EvEnterContext "_system" true 0;
     EvContextEnter 0; EvContextEnter 0;
     EvLog DEBUG None "running database init/upgrade";
     EvUpgradeDatabase "_system"; EvUpgradeDatabase "orders";
     EvContextExit 0;
     EvLog FATAL None
       "Database 'orders' upgrade failed. Please inspect the logs from the upgrade procedure";
     EvExit EXIT_FAILURE].
Proof. vm_compute. repeat split; reflexivity. Qed.

(** C10: [start] stores through [_result] only when upgrade=true and the
    sweep has completed: then [start] returns, the script has been called
    for every database, and the one value stored is EXIT_SUCCESS, at the
    address [_result].  With upgrade=false neither [validateOptions] nor
    [start] stores anything, and every integer of the process keeps its
    value. *)
Theorem result_written_only_by_completed_upgrade f srv p :
  let run := start f srv p in
  (stores (performed p run.2) <> [] ->
   _upgrade f = true /\ _upgradeCheck f = true /\
   run.1 = Returned tt /\
   visited (performed p run.2) = names (_databases srv) /\
   stores (performed p run.2) = [(_result f, EXIT_SUCCESS)] /\
   ints run.2 = <[_result f := EXIT_SUCCESS]> (ints p)) /\
  (_upgrade f = false ->
   stores (performed p run.2) = [] /\ ints run.2 = ints p /\
   stores (performed p (validateOptions f p).2) = [] /\
   ints (validateOptions f p).2 = ints p).
Proof.
  intros run. subst run.
  assert (Hcases :
    (stores (performed p (start f srv p).2) = [] /\
     ints (start f srv p).2 = ints p) \/
    (_upgrade f = true /\ _upgradeCheck f = true /\
     (start f srv p).1 = Returned tt /\
     visited (performed p (start f srv p).2) = names (_databases srv) /\
     stores (performed p (start f srv p).2) = [(_result f, EXIT_SUCCESS)] /\
     ints (start f srv p).2 = <[_result f := EXIT_SUCCESS]> (ints p))).
  { destruct (wal_open srv) eqn:Hw.
    2:{ left. rewrite start_wal_fails by assumption. cbn [snd].
        erewrite performed_app by (run_all; reflexivity).
        split; reflexivity. }
    destruct (_upgradeCheck f) eqn:Hc.
    2:{ left. rewrite start_without_check by assumption. cbn [snd].
        erewrite performed_app by (run_all; reflexivity).
        split; [|reflexivity]. destruct (_upgrade f); reflexivity. }
    destruct (all_succeed_or_first_failure f srv (_databases srv) (global p))
      as [[g' Hall]|(pre & d & post & g & E & Hpre & Hd)].
    - destruct (start_completes f srv p g' Hw Hc Hall)
        as (p' & E & Ht & Hi & _).
      rewrite E. cbn [fst snd]. rewrite (performed_app _ _ _ Ht).
      unfold sweep_epilogue.
      rewrite !stores_app, !visited_app, stores_calls, visited_calls.
      destruct (_upgrade f).
      + right. repeat split; try reflexivity; try exact Hi.
        cbn. apply app_nil_r.
      + left. split; [reflexivity|exact Hi].
    - destruct (start_stops f srv p pre d post g Hw Hc E Hpre Hd)
        as (p' & E' & Ht & Hi & _).
      left. rewrite E'. cbn [snd]. rewrite (performed_app _ _ _ Ht).
      rewrite !stores_app, stores_calls. unfold failure_events.
      split; [|exact Hi]. destruct (started _); reflexivity. }
  split.
  - intros Hne. destruct Hcases as [[Hs _]|H]; [contradiction|exact H].
  - intros Hu. destruct Hcases as [[Hs Hi]|(Hu' & _)]; [|congruence].
    split; [exact Hs|]. split; [exact Hi|].
    rewrite validateOptions_check_only by exact Hu. cbn [snd].
    erewrite performed_app by (run_all; reflexivity).
    split; reflexivity.
Qed.

Lemma result_written_only_by_completed_upgrade_witness :
  let srv := mk_server true system_db three_databases script_succeeds in
  (let f := mk_feature true true 16%N [] in
   let run := start f srv busy_process in
   _upgrade f = true /\ _upgradeCheck f = true /\
   run.1 = Returned tt /\
   visited (performed busy_process run.2) = names (_databases srv) /\
   stores (performed busy_process run.2) = [(_result f, EXIT_SUCCESS)] /\
   ints run.2 = <[_result f := EXIT_SUCCESS]> (ints busy_process)) /\
  (let f := mk_feature false true 16%N [] in
   let run := start f srv busy_process in
   stores (performed busy_process run.2) = [] /\
   ints run.2 = ints busy_process /\
   stores (performed busy_process (validateOptions f busy_process).2) = [] /\
   ints (validateOptions f busy_process).2 = ints busy_process).
Proof.
  split.
  - refine (proj1 (result_written_only_by_completed_upgrade
                     (mk_feature true true 16%N [])
                     (mk_server true system_db three_databases script_succeeds)
                     busy_process) _).
    vm_compute. discriminate.
  - exact (proj2 (result_written_only_by_completed_upgrade
                    (mk_feature false true 16%N [])
                    (mk_server true system_db three_databases script_succeeds)
                    busy_process) eq_refl).
Defined.

(** C8: registering a transaction with a context that already has one fails
    with a ContextState error, and the transaction registered first is still
    the current transaction of the context after the failed call. *)
Theorem second_registration_fails ctx first second :
  Transaction._currentTransaction ctx = Some first ->
  Transaction.registerTransaction second ctx =
    (inl (Transaction.ContextState "transaction already registered"), ctx) /\
  Transaction.getParentTransaction
    (Transaction.registerTransaction second ctx).2 = Some first.
Proof.
  intros H. unfold Transaction.registerTransaction. rewrite H.
  split; [reflexivity|exact H].
Qed.

Lemma second_registration_fails_witness :
  let ctx :=
    (Transaction.registerTransaction 41%N
       (Transaction.create system_db false)).2 in
  Transaction.registerTransaction 42%N ctx =
    (inl (Transaction.ContextState "transaction already registered"), ctx) /\
  Transaction.getParentTransaction
    (Transaction.registerTransaction 42%N ctx).2 = Some 41%N.
Proof.
  exact (second_registration_fails
           (Transaction.registerTransaction 41%N
              (Transaction.create system_db false)).2
           41%N 42%N eq_refl).
Defined.

(** * Further properties of the feature *)

Lemma exits_app t1 t2 : exits (t1 ++ t2) = exits t1 ++ exits t2.
Proof. apply omap_app. Qed.

Lemma exits_calls dbs : exits (calls dbs) = [].
Proof. induction dbs as [|d dbs IH]; simpl; [reflexivity|exact IH]. Qed.

Lemma server_changes_app t1 t2 :
  server_changes (t1 ++ t2) = server_changes t1 ++ server_changes t2.
Proof. apply List.filter_app. Qed.

Lemma calls_app l1 l2 : calls (l1 ++ l2) = calls l1 ++ calls l2.
Proof. apply fmap_app. Qed.

Lemma names_app l1 l2 : names (l1 ++ l2) = names l1 ++ names l2.
Proof. apply fmap_app. Qed.

(** The marker is not the key under which the arguments are stored. *)
Lemma started_insert_args v g :
  started (<["UPGRADE_ARGS" := v]> g) = started g.
Proof. unfold started. rewrite lookup_insert_ne by discriminate. reflexivity. Qed.

(** The four ways [start] can run. *)
Lemma start_cases f srv p :
  (wal_open srv = false /\
   start f srv p =
   (Exited EXIT_FAILURE,
    with_trace p
      (trace p ++ start_prologue srv ++
       [EvLog FATAL None "Unable to finish WAL recovery procedure";
        EvExit EXIT_FAILURE]))) \/
  (wal_open srv = true /\ _upgradeCheck f = false /\
   start f srv p =
   (Returned tt,
    with_trace p
      (trace p ++ start_prologue srv ++
       (if _upgrade f then [EvBeginShutdown] else [])))) \/
  (wal_open srv = true /\ _upgradeCheck f = true /\
   exists g' p',
     all_succeed f srv (_databases srv) (global p) = Some g' /\
     start f srv p = (Returned tt, p') /\
     trace p' = trace p ++ start_prologue srv ++ sweep_prologue srv ++
                calls (_databases srv) ++ sweep_epilogue f ++
                (if _upgrade f then [EvBeginShutdown] else []) /\
     ints p' = (if _upgrade f then <[_result f := EXIT_SUCCESS]> (ints p)
                else ints p) /\
     global p' = g') \/
  (wal_open srv = true /\ _upgradeCheck f = true /\
   exists pre d post g p',
     _databases srv = pre ++ d :: post /\
     all_succeed f srv pre (global p) = Some g /\
     (answer f srv d g).1 = false /\
     start f srv p = (Exited EXIT_FAILURE, p') /\
     trace p' = trace p ++ start_prologue srv ++ sweep_prologue srv ++
                calls (pre ++ [d]) ++
                failure_events f 0 d.2 (answer f srv d g).2 /\
     ints p' = ints p /\
     global p' = (answer f srv d g).2).
Proof.
  destruct (wal_open srv) eqn:Hw.
  2:{ left. split; [reflexivity|]. apply start_wal_fails. exact Hw. }
  destruct (_upgradeCheck f) eqn:Hc.
  2:{ right; left. repeat split. apply start_without_check; assumption. }
  destruct (all_succeed_or_first_failure f srv (_databases srv) (global p))
    as [[g' Hall]|(pre & d & post & g & E & Hpre & Hd)].
  - right; right; left. repeat split.
    destruct (start_completes f srv p g' Hw Hc Hall)
      as (p' & E & Ht & Hi & _ & _ & _ & Hg).
    exists g', p'. repeat split; assumption.
  - right; right; right. repeat split.
    destruct (start_stops f srv p pre d post g Hw Hc E Hpre Hd)
      as (p' & E' & Ht & Hi & _ & Hg).
    exists pre, d, post, g, p'. repeat split; assumption.
Qed.

(** X1: [validateOptions] terminates the process exactly for the
    configuration upgrade=true with upgrade-check=false, and returns for the
    three others; in every case it leaves the integers, the context slot,
    the sandbox and its global object as they were. *)
Theorem validateOptions_rejects_only_the_conflict f p :
  let run := validateOptions f p in
  run.1 = (if _upgrade f && negb (_upgradeCheck f)
           then Exited EXIT_FAILURE else Returned tt) /\
  ints run.2 = ints p /\
  current_context run.2 = current_context p /\
  saved_contexts run.2 = saved_contexts p /\
  held_sandbox run.2 = held_sandbox p /\
  global run.2 = global p.
Proof.
  destruct p as [t i c s h g].
  cbv [validateOptions mbind Run_bind mret Run_ret LOG_TOPIC LOG emit
       FATAL_ERROR_EXIT].
  destruct (_upgrade f), (_upgradeCheck f); run_all; repeat split; reflexivity.
Qed.

(** X2: [validateOptions] changes what the server will run only for
    upgrade=true with upgrade-check=true: it then disables the non-server
    features it was given, disables the replication applier, enables the
    upgrade and disables the cluster, in this order.  For the rejected
    configuration and for upgrade=false it makes none of these calls. *)
Theorem validateOptions_disables_features_only_for_upgrade f p :
  server_changes (performed p (validateOptions f p).2) =
  if _upgrade f && _upgradeCheck f
  then [EvDisableFeatures (_nonServerFeatures f);
        EvDisableReplicationApplier; EvEnableUpgrade; EvClusterDisable]
  else [].
Proof.
  destruct p as [t i c s h g].
  cbv [validateOptions mbind Run_bind mret Run_ret LOG_TOPIC LOG emit
       FATAL_ERROR_EXIT performed].
  destruct (_upgrade f), (_upgradeCheck f); run_all;
    rewrite <- ?app_assoc, drop_app_length; reflexivity.
Qed.

(** X3: [start] terminates the process only right after one message at
    level FATAL, with the status EXIT_FAILURE, and the exit is its last
    event; a run that returns has logged no message at level FATAL. *)
Theorem start_exits_after_one_fatal_message f srv p :
  let run := start f srv p in
  let evs := performed p run.2 in
  match run.1 with
  | Returned _ => fatal_messages evs = [] /\ exits evs = []
  | Exited st =>
      st = EXIT_FAILURE /\ st <> EXIT_SUCCESS /\
      exists before msg,
        evs = before ++ [EvLog FATAL None msg; EvExit EXIT_FAILURE] /\
        fatal_messages before = [] /\ exits before = []
  end.
Proof.
  cbv zeta.
  destruct (start_cases f srv p)
    as [(Hw & E)|[(Hw & Hc & E)|[(Hw & Hc & g' & p' & Hall & E & Ht & _)
       |(Hw & Hc & pre & d & post & g & p' & Edb & Hpre & Hd & E & Ht & _)]]];
    rewrite E; cbn [fst snd].
  - split; [reflexivity|]. split; [discriminate|].
    erewrite performed_app by (run_all; reflexivity).
    exists (start_prologue srv), "Unable to finish WAL recovery procedure".
    repeat split; reflexivity.
  - erewrite performed_app by (run_all; reflexivity).
    destruct (_upgrade f); split; reflexivity.
  - rewrite (performed_app _ _ _ Ht). unfold sweep_epilogue.
    rewrite !fatal_messages_app, !exits_app, fatal_messages_calls, exits_calls.
    destruct (_upgrade f); split; reflexivity.
  - split; [reflexivity|]. split; [discriminate|].
    rewrite (performed_app _ _ _ Ht). unfold failure_events.
    exists (start_prologue srv ++ sweep_prologue srv ++ calls (pre ++ [d]) ++
            (if started (answer f srv d g).2 then [EvContextExit 0] else [])),
           (failure_message f d.2 (answer f srv d g).2).
    split. { rewrite <- !app_assoc. reflexivity. }
    rewrite !fatal_messages_app, !exits_app, fatal_messages_calls, exits_calls.
    destruct (started _); split; reflexivity.
Qed.

(** X4: whatever the upgrade script answers, the databases [start] has
    called it for are a prefix of the snapshot, in enumeration order: no
    database is visited twice, skipped or visited out of order.  A run that
    returns has visited the whole snapshot when upgrade-check is set and no
    database when it is not. *)
Theorem visited_is_a_prefix_of_the_snapshot f srv p :
  let run := start f srv p in
  visited (performed p run.2) `prefix_of` names (_databases srv) /\
  match run.1 with
  | Returned _ =>
      visited (performed p run.2) =
      if _upgradeCheck f then names (_databases srv) else []
  | Exited _ => True
  end.
Proof.
  cbv zeta.
  destruct (start_cases f srv p)
    as [(Hw & E)|[(Hw & Hc & E)|[(Hw & Hc & g' & p' & Hall & E & Ht & _)
       |(Hw & Hc & pre & d & post & g & p' & Edb & Hpre & Hd & E & Ht & _)]]];
    rewrite E; cbn [fst snd].
  - erewrite performed_app by (run_all; reflexivity).
    split; [|exact I]. apply prefix_nil.
  - erewrite performed_app by (run_all; reflexivity). rewrite Hc.
    assert (Hv : visited (start_prologue srv ++
                          (if _upgrade f then [EvBeginShutdown] else [])) = [])
      by (destruct (_upgrade f); reflexivity).
    rewrite Hv. split; [apply prefix_nil|reflexivity].
  - rewrite (performed_app _ _ _ Ht), Hc. unfold sweep_epilogue.
    assert (Hv : visited (start_prologue srv ++ sweep_prologue srv ++
                calls (_databases srv) ++
                ([EvContextExit 0; EvContextExit 0; EvExitContext 0] ++
                 (if _upgrade f
                  then [EvStoreInt (_result f) EXIT_SUCCESS;
                        EvLog INFO None "database upgrade passed"]
                  else []) ++
                 [EvLog TRACE None "finished database init/upgrade"]) ++
                (if _upgrade f then [EvBeginShutdown] else []))
              = names (_databases srv)).
    { rewrite !visited_app, visited_calls.
      destruct (_upgrade f); cbn; apply app_nil_r. }
    rewrite Hv. split; reflexivity.
  - rewrite (performed_app _ _ _ Ht). split; [|exact I].
    rewrite !visited_app, visited_calls. unfold failure_events.
    rewrite Edb. exists (names post).
    rewrite names_app. unfold names at 3. rewrite !fmap_app.
    destruct (started _); cbn; rewrite ?app_nil_r, <- ?app_assoc; reflexivity.
Qed.

(** X5: the sweep stops at the first database for which the script returns
    false, whether upgrade was requested or not and whether the marker is
    set or not: the process exits, the script has been called for the
    databases up to this one and for none after it, nothing has been stored
    and no shutdown has been requested; the global object is the one this
    last call left. *)
Theorem first_failure_ends_the_run f srv p pre d post g :
  _upgradeCheck f = true -> wal_open srv = true ->
  _databases srv = pre ++ d :: post ->
  all_succeed f srv pre (global p) = Some g ->
  (answer f srv d g).1 = false ->
  exists p',
    start f srv p = (Exited EXIT_FAILURE, p') /\
    visited (performed p p') = names pre ++ [_name d.2] /\
    last (performed p p') = Some (EvExit EXIT_FAILURE) /\
    stores (performed p p') = [] /\
    ints p' = ints p /\
    existsb is_shutdown (performed p p') = false /\
    global p' = (answer f srv d g).2.
Proof.
  intros Hc Hw E Hpre Hd.
  destruct (start_stops f srv p pre d post g Hw Hc E Hpre Hd)
    as (p' & E' & Ht & Hi & _ & Hg).
  exists p'. split; [exact E'|].
  rewrite (performed_app _ _ _ Ht). unfold failure_events.
  rewrite calls_app.
  rewrite !visited_app, !stores_app, !existsb_app, visited_calls, stores_calls.
  rewrite existsb_calls by reflexivity.
  repeat split; try assumption.
  - destruct (started _); cbn; rewrite ?app_nil_r; reflexivity.
  - rewrite !app_assoc.
    change [EvLog FATAL None (failure_message f d.2 (answer f srv d g).2);
            EvExit EXIT_FAILURE]
      with ([EvLog FATAL None (failure_message f d.2 (answer f srv d g).2)] ++
            [EvExit EXIT_FAILURE]).
    rewrite app_assoc. apply last_snoc.
  - destruct (started _); reflexivity.
  - destruct (started _); reflexivity.
Qed.

Lemma first_failure_ends_the_run_witness :
  let f := mk_feature false true 16%N [] in
  let srv := mk_server true system_db three_databases script_broken_for_orders in
  let d := ("orders", mk_vocbase "orders") in
  let g := <["UPGRADE_STARTED" := JsBoolean true]>
             (<["UPGRADE_ARGS" := upgrade_args f]> ∅) in
  exists p',
    start f srv busy_process = (Exited EXIT_FAILURE, p') /\
    visited (performed busy_process p') =
      names [("_system", system_db)] ++ [_name d.2] /\
    last (performed busy_process p') = Some (EvExit EXIT_FAILURE) /\
    stores (performed busy_process p') = [] /\
    ints p' = ints busy_process /\
    existsb is_shutdown (performed busy_process p') = false /\
    global p' = (answer f srv d g).2.
Proof.
  exact (first_failure_ends_the_run
           (mk_feature false true 16%N [])
           (mk_server true system_db three_databases script_broken_for_orders)
           busy_process
           [("_system", system_db)] ("orders", mk_vocbase "orders")
           [("users", mk_vocbase "users")] _
           eq_refl eq_refl eq_refl eq_refl eq_refl).
Defined.

(** X6: [start] asks for the shutdown of the server exactly when upgrade is
    set and it returns, also when upgrade-check is not set and no sweep has
    taken place; the request is then its last event.  A run that exits has
    asked for no shutdown. *)
Theorem shutdown_exactly_when_upgrade_returns f srv p :
  let run := start f srv p in
  let evs := performed p run.2 in
  match run.1 with
  | Returned _ =>
      if _upgrade f
      then exists before,
             evs = before ++ [EvBeginShutdown] /\
             existsb is_shutdown before = false
      else existsb is_shutdown evs = false
  | Exited _ => existsb is_shutdown evs = false
  end.
Proof.
  cbv zeta.
  destruct (start_cases f srv p)
    as [(Hw & E)|[(Hw & Hc & E)|[(Hw & Hc & g' & p' & Hall & E & Ht & _)
       |(Hw & Hc & pre & d & post & g & p' & Edb & Hpre & Hd & E & Ht & _)]]];
    rewrite E; cbn [fst snd].
  - erewrite performed_app by (run_all; reflexivity). reflexivity.
  - erewrite performed_app by (run_all; reflexivity).
    destruct (_upgrade f); [|reflexivity].
    exists (start_prologue srv). split; reflexivity.
  - rewrite (performed_app _ _ _ Ht). unfold sweep_epilogue.
    destruct (_upgrade f).
    + exists (start_prologue srv ++ sweep_prologue srv ++
              calls (_databases srv) ++
              [EvContextExit 0; EvContextExit 0; EvExitContext 0;
               EvStoreInt (_result f) EXIT_SUCCESS;
               EvLog INFO None "database upgrade passed";
               EvLog TRACE None "finished database init/upgrade"]).
      split. { rewrite <- !app_assoc. reflexivity. }
      rewrite !existsb_app. rewrite existsb_calls by reflexivity. reflexivity.
    + rewrite !existsb_app. rewrite existsb_calls by reflexivity. reflexivity.
  - rewrite (performed_app _ _ _ Ht). unfold failure_events.
    rewrite !existsb_app. rewrite existsb_calls by reflexivity.
    destruct (started _); reflexivity.
Qed.

(** X9: over an empty snapshot the sweep completes without calling the
    script; with upgrade set it still stores EXIT_SUCCESS through [_result]
    and asks for the shutdown. *)
Theorem empty_snapshot_passes f srv p :
  _databases srv = [] -> _upgradeCheck f = true -> wal_open srv = true ->
  exists p',
    start f srv p = (Returned tt, p') /\
    visited (performed p p') = [] /\
    fatal_messages (performed p p') = [] /\
    stores (performed p p') =
      (if _upgrade f then [(_result f, EXIT_SUCCESS)] else []) /\
    ints p' = (if _upgrade f then <[_result f := EXIT_SUCCESS]> (ints p)
               else ints p) /\
    existsb is_shutdown (performed p p') = _upgrade f /\
    global p' = global p.
Proof.
  intros E Hc Hw.
  assert (Hall : all_succeed f srv (_databases srv) (global p) = Some (global p))
    by (rewrite E; reflexivity).
  destruct (start_completes f srv p (global p) Hw Hc Hall)
    as (p' & E' & Ht & Hi & _ & _ & _ & Hg).
  exists p'. split; [exact E'|].
  rewrite (performed_app _ _ _ Ht), E. unfold sweep_epilogue.
  destruct (_upgrade f); repeat split; try assumption; reflexivity.
Qed.

Lemma empty_snapshot_passes_witness :
  let f := mk_feature true true 16%N [] in
  let srv := mk_server true system_db [] script_broken in
  exists p',
    start f srv busy_process = (Returned tt, p') /\
    visited (performed busy_process p') = [] /\
    fatal_messages (performed busy_process p') = [] /\
    stores (performed busy_process p') =
      (if _upgrade f then [(_result f, EXIT_SUCCESS)] else []) /\
    ints p' = (if _upgrade f
               then <[_result f := EXIT_SUCCESS]> (ints busy_process)
               else ints busy_process) /\
    existsb is_shutdown (performed busy_process p') = _upgrade f /\
    global p' = global busy_process.
Proof.
  exact (empty_snapshot_passes
           (mk_feature true true 16%N [])
           (mk_server true system_db [] script_broken)
           busy_process eq_refl eq_refl eq_refl).
Defined.

(** The failure branch, run inside context [lc] entered over [prior]. *)
Lemma on_failure_inside f lc db p prior rest :
  current_context p = Some lc ->
  saved_contexts p = prior :: rest ->
  exists p',
    on_failure f lc db p = (Exited EXIT_FAILURE, p') /\
    trace p' = trace p ++ failure_events f lc db (global p) /\
    global p' = global p /\
    held_sandbox p' = held_sandbox p /\
    current_context p' = (if started (global p) then prior else Some lc) /\
    saved_contexts p' = (if started (global p) then rest else prior :: rest).
Proof.
  intros Hcur Hsav.
  unfold on_failure, failure_events, failure_message, started.
  rewrite bind_unfold. unfold Global_Has at 1.
  destruct (bool_decide (is_Some (global p !! "UPGRADE_STARTED"))) eqn:Hs.
  - destruct (_upgrade f); eexists; (split; [reflexivity|]);
      unfold Context_Exit; rewrite Hsav, Hcur;
      rewrite bool_decide_eq_true_2 by reflexivity;
      run_all; rewrite <- ?app_assoc; repeat split; reflexivity.
  - eexists; split; [reflexivity|]. run_all.
    rewrite <- ?app_assoc. repeat split; try reflexivity; assumption.
Qed.

(** Where the sweep is when the script fails. *)
Lemma upgradeDatabase_stops_at f srv p pre d post g :
  _databases srv = pre ++ d :: post ->
  all_succeed f srv pre (global p) = Some g ->
  (answer f srv d g).1 = false ->
  upgradeDatabase f srv p =
  on_failure f 0 d.2
    (mk_process (trace p ++ sweep_prologue srv ++ calls (pre ++ [d]))
                (ints p) (Some 0%Z)
                (Some 0%Z :: current_context p :: saved_contexts p)
                (Some (mk_dealer_context 0)) (answer f srv d g).2).
Proof.
  intros E Hpre Hd. destruct p as [t i c s h g0]. cbn [global] in Hpre.
  cbv [upgradeDatabase Context_Scope mbind Run_bind mret Run_ret LOG emit
       enterContext Context_Enter _id].
  run_all. rewrite E.
  erewrite sweep_stops; [|run_all; exact Hpre|exact Hd].
  run_all. unfold sweep_prologue. rewrite <- !app_assoc. cbn [app].
  match goal with
  | |- context [on_failure f 0 d.2 ?q] =>
      destruct (on_failure_exits f 0 d.2 q) as (p' & E' & _)
  end.
  rewrite E'. reflexivity.
Qed.

(** X7: a sweep that terminates the process never gives the sandbox back
    to the dealer: [exitContext] is not called, the sandbox is still held
    and context 0 is still the current context.  When the marker is set, one
    of the two entries into the context has been exited before the exit;
    when it is not, none has.  A sweep that returns has given the sandbox
    back. *)
Theorem exiting_sweep_keeps_the_sandbox f srv p :
  let run := upgradeDatabase f srv p in
  match run.1 with
  | Returned _ => held_sandbox run.2 = None
  | Exited _ =>
      held_sandbox run.2 = Some (mk_dealer_context 0) /\
      existsb is_exit_context (performed p run.2) = false /\
      current_context run.2 = Some 0%Z /\
      saved_contexts run.2 =
        (if started (global run.2) then [] else [Some 0%Z]) ++
        current_context p :: saved_contexts p
  end.
Proof.
  cbv zeta.
  destruct (all_succeed_or_first_failure f srv (_databases srv) (global p))
    as [[g' Hall]|(pre & d & post & g & E & Hpre & Hd)].
  - destruct (upgradeDatabase_completes f srv p g' Hall)
      as (q & Eq & _ & _ & _ & _ & Hh & _).
    rewrite Eq. exact Hh.
  - rewrite (upgradeDatabase_stops_at f srv p pre d post g E Hpre Hd).
    match goal with
    | |- context [on_failure f 0 d.2 ?q] =>
        destruct (on_failure_inside f 0 d.2 q (Some 0%Z)
                    (current_context p :: saved_contexts p)
                    eq_refl eq_refl)
          as (p' & E' & Ht & Hg & Hh & Hcur & Hsav)
    end.
    rewrite E'. cbn [fst snd]. revert Ht Hg Hh Hcur Hsav. run_all.
    intros Ht Hg Hh Hcur Hsav. rewrite Hg, Hh, Hcur, Hsav.
    rewrite <- app_assoc in Ht. rewrite (performed_app _ _ _ Ht).
    unfold failure_events.
    rewrite !existsb_app. rewrite existsb_calls by reflexivity.
    destruct (started (answer f srv d g).2); repeat split; reflexivity.
Qed.

Lemma bind_ext {A B : Type} (c : Run A) (k1 k2 : A -> Run B) p :
  (forall a q, k1 a q = k2 a q) -> (c ≫= k1) p = (c ≫= k2) p.
Proof.
  intros H. rewrite !bind_unfold. destruct (c p) as [[a|st] q]; [apply H|reflexivity].
Qed.

Lemma bind_ext_l {A B : Type} (c1 c2 : Run A) (k : A -> Run B) p :
  c1 p = c2 p -> (c1 ≫= k) p = (c2 ≫= k) p.
Proof. intros H. rewrite !bind_unfold, H. reflexivity. Qed.

Lemma for_each_ext {A : Type} (l : list A) (body1 body2 : A -> Run unit) p :
  (forall x q, body1 x q = body2 x q) ->
  for_each l body1 p = for_each l body2 p.
Proof.
  intros H. revert p. induction l as [|x l IH]; intros p; [reflexivity|].
  cbn [for_each]. rewrite !bind_unfold, H.
  destruct (body2 x p) as [[[]|st] q]; [apply IH|reflexivity].
Qed.

(** X8: the script is only ever called on a global object in which
    UPGRADE_ARGS is bound to the object whose member "upgrade" is the value
    of [_upgrade]: two scripts that agree on such global objects give the
    same sweep and the same run of [start]. *)
Theorem script_is_called_with_upgrade_args f srv script p :
  (forall db g,
      g !! "UPGRADE_ARGS" = Some (upgrade_args f) ->
      script db g = TRI_UpgradeDatabase srv db g) ->
  upgradeDatabase f (with_script srv script) p = upgradeDatabase f srv p /\
  start f (with_script srv script) p = start f srv p.
Proof.
  intros H.
  assert (Hone : forall lc d q,
             upgradeOne f (with_script srv script) lc d q =
             upgradeOne f srv lc d q).
  { intros lc d q. rewrite !upgradeOne_eq. unfold answer.
    cbn [TRI_UpgradeDatabase with_script].
    rewrite H by apply lookup_insert_eq. reflexivity. }
  assert (Hsweep : forall q,
             upgradeDatabase f (with_script srv script) q =
             upgradeDatabase f srv q).
  { intros q. unfold upgradeDatabase, Context_Scope.
    cbn [with_script vocbase _databases].
    apply bind_ext; intros [] q1.
    apply bind_ext; intros context q2.
    apply bind_ext; intros [] q3.
    apply bind_ext_l.
    apply bind_ext; intros [] q4.
    apply bind_ext_l.
    apply bind_ext; intros [] q5.
    apply for_each_ext. intros d q6. apply Hone. }
  split; [apply Hsweep|].
  unfold start, LogfileManager_open. cbn [with_script wal_open].
  apply bind_ext; intros [] q1.
  apply bind_ext; intros ok q2.
  apply bind_ext; intros [] q3.
  apply bind_ext_l.
  destruct (_upgradeCheck f); [apply Hsweep|reflexivity].
Qed.

Lemma script_is_called_with_upgrade_args_witness :
  let f := mk_feature true true 16%N [] in
  let srv := mk_server true system_db three_databases script_obeys_args in
  upgradeDatabase f (with_script srv script_succeeds) busy_process =
  upgradeDatabase f srv busy_process /\
  start f (with_script srv script_succeeds) busy_process =
  start f srv busy_process.
Proof.
  refine (script_is_called_with_upgrade_args
            (mk_feature true true 16%N [])
            (mk_server true system_db three_databases script_obeys_args)
            script_succeeds busy_process _).
  intros db g Hg. cbn [TRI_UpgradeDatabase]. unfold script_obeys_args.
  rewrite Hg. reflexivity.
Defined.

(** The marker stays set along a sweep when the script never removes it. *)
Lemma all_succeed_keeps_marker f srv dbs g g' :
  (forall db g0, started g0 = true ->
                 started (TRI_UpgradeDatabase srv db g0).2 = true) ->
  all_succeed f srv dbs g = Some g' ->
  started g = true -> started g' = true.
Proof.
  intros Hkeep. revert g. induction dbs as [|d dbs IH]; intros g H Hs; simpl in H.
  - injection H as <-. exact Hs.
  - destruct (answer f srv d g).1; [|discriminate].
    apply (IH _ H). unfold answer. apply Hkeep.
    rewrite started_insert_args. exact Hs.
Qed.

Lemma all_succeed_sets_marker f srv dbs e g g' :
  (forall db g0, started g0 = true ->
                 started (TRI_UpgradeDatabase srv db g0).2 = true) ->
  (forall g0, started (TRI_UpgradeDatabase srv e.2 g0).2 = true) ->
  e ∈ dbs ->
  all_succeed f srv dbs g = Some g' ->
  started g' = true.
Proof.
  intros Hkeep Hset. revert g. induction dbs as [|d dbs IH]; intros g Hin H.
  - inversion Hin.
  - simpl in H. destruct (answer f srv d g).1; [|discriminate].
    apply elem_of_cons in Hin as [<-|Hin].
    + apply (all_succeed_keeps_marker f srv dbs _ g' Hkeep H).
      unfold answer. apply Hset.
    + exact (IH _ Hin H).
Qed.

(** X10: the marker is read from the global object the databases share.
    When the script has set it for a database earlier in the sweep and
    never removes it, a later failure is reported with the message of a
    started upgrade ("upgrade failed" or "needs upgrade"), never with the
    JavaScript error message, whatever the script did for the failing
    database. *)
Theorem marker_of_an_earlier_database_decides f srv p pre d post g e :
  _upgradeCheck f = true -> wal_open srv = true ->
  _databases srv = pre ++ d :: post ->
  all_succeed f srv pre (global p) = Some g ->
  (answer f srv d g).1 = false ->
  e ∈ pre ->
  (forall g0, started (TRI_UpgradeDatabase srv e.2 g0).2 = true) ->
  (forall db g0, started g0 = true ->
                 started (TRI_UpgradeDatabase srv db g0).2 = true) ->
  exists p',
    start f srv p = (Exited EXIT_FAILURE, p') /\
    fatal_messages (performed p p') =
      [if _upgrade f then upgrade_failed_message (_name d.2)
       else needs_upgrade_message (_name d.2)].
Proof.
  intros Hc Hw E Hpre Hd Hin Hset Hkeep.
  destruct (start_stops f srv p pre d post g Hw Hc E Hpre Hd)
    as (p' & E' & Ht & _).
  exists p'. split; [exact E'|].
  assert (Hs : started (answer f srv d g).2 = true).
  { unfold answer. apply Hkeep. rewrite started_insert_args.
    exact (all_succeed_sets_marker f srv pre e _ g Hkeep Hset Hin Hpre). }
  rewrite (performed_app _ _ _ Ht).
  rewrite !fatal_messages_app, fatal_messages_calls.
  unfold failure_events, failure_message. rewrite Hs.
  destruct (_upgrade f); reflexivity.
Qed.

Lemma marker_of_an_earlier_database_decides_witness :
  let f := mk_feature false true 16%N [] in
  let srv := mk_server true system_db three_databases script_broken_for_orders in
  let d := ("orders", mk_vocbase "orders") in
  exists p',
    start f srv busy_process = (Exited EXIT_FAILURE, p') /\
    fatal_messages (performed busy_process p') =
      [if _upgrade f then upgrade_failed_message (_name d.2)
       else needs_upgrade_message (_name d.2)].
Proof.
  refine (marker_of_an_earlier_database_decides
            (mk_feature false true 16%N [])
            (mk_server true system_db three_databases script_broken_for_orders)
            busy_process
            [("_system", system_db)] ("orders", mk_vocbase "orders")
            [("users", mk_vocbase "users")] _ ("_system", system_db)
            eq_refl eq_refl eq_refl eq_refl eq_refl _ _ _).
  - apply list_elem_of_here.
  - intros g0. cbn [TRI_UpgradeDatabase snd]. unfold script_broken_for_orders.
    cbn [system_db _name String.eqb Ascii.eqb Bool.eqb snd]. unfold started.
    rewrite lookup_insert_eq. reflexivity.
  - intros db g0 H. cbn [TRI_UpgradeDatabase]. unfold script_broken_for_orders.
    destruct (String.eqb (_name db) "orders"); cbn [snd]; [exact H|].
    unfold started. rewrite lookup_insert_eq. reflexivity.
Defined.

(** X11: a feature as the constructor leaves it (upgrade=false,
    upgrade-check=true) passes validation without changing what the server
    will run, and [start] then checks the databases: it stores nothing, asks
    for no shutdown, and when it returns the script has been called for
    every database of the snapshot. *)
Theorem default_configuration_only_checks result nonServerFeatures srv p :
  let f := UpgradeFeature_new result nonServerFeatures in
  let validated := validateOptions f p in
  let run := start f srv validated.2 in
  validated.1 = Returned tt /\
  server_changes (performed p validated.2) = [] /\
  existsb is_shutdown (performed validated.2 run.2) = false /\
  stores (performed validated.2 run.2) = [] /\
  ints run.2 = ints p /\
  match run.1 with
  | Returned _ => visited (performed validated.2 run.2) = names (_databases srv)
  | Exited _ => True
  end.
Proof.
  cbv zeta.
  rewrite (validateOptions_check_only (UpgradeFeature_new result nonServerFeatures) p)
    by reflexivity.
  cbn [fst snd]. split; [reflexivity|]. split.
  { erewrite performed_app by (run_all; reflexivity). reflexivity. }
  set (v := with_trace p _).
  change (ints p) with (ints v).
  destruct (start_cases (UpgradeFeature_new result nonServerFeatures) srv v)
    as [(Hw & E)|[(Hw & Hc & E)|[(Hw & Hc & g' & p' & Hall & E & Ht & Hi & _)
       |(Hw & Hc & pre & d & post & g & p' & Edb & Hpre & Hd & E & Ht & Hi & _)]]];
    try discriminate Hc; rewrite E; cbn [fst snd].
  - erewrite performed_app by (run_all; reflexivity).
    repeat split; reflexivity.
  - rewrite (performed_app _ _ _ Ht). unfold sweep_epilogue.
    cbn [UpgradeFeature_new _upgrade] in *.
    rewrite !existsb_app, !stores_app, !visited_app.
    rewrite existsb_calls by reflexivity. rewrite stores_calls, visited_calls.
    repeat split; try reflexivity; try exact Hi. cbn. apply app_nil_r.
  - rewrite (performed_app _ _ _ Ht). unfold failure_events.
    rewrite !existsb_app, !stores_app.
    rewrite existsb_calls by reflexivity. rewrite stores_calls.
    destruct (started _); repeat split; try reflexivity; exact Hi.
Qed.

(** X12: a run of [start] that terminates the process has stored nothing:
    every integer of the process, the caller's result included, keeps the
    value it had, also when upgrade was requested. *)
Theorem exiting_run_stores_nothing f srv p st :
  (start f srv p).1 = Exited st ->
  stores (performed p (start f srv p).2) = [] /\
  ints (start f srv p).2 = ints p.
Proof.
  destruct (start_cases f srv p)
    as [(Hw & E)|[(Hw & Hc & E)|[(Hw & Hc & g' & p' & Hall & E & Ht & _)
       |(Hw & Hc & pre & d & post & g & p' & Edb & Hpre & Hd & E & Ht & Hi & _)]]];
    rewrite E; cbn [fst snd]; intros H; try discriminate H.
  - erewrite performed_app by (run_all; reflexivity). split; reflexivity.
  - rewrite (performed_app _ _ _ Ht). unfold failure_events.
    rewrite !stores_app, stores_calls.
    split; [|exact Hi]. destruct (started _); reflexivity.
Qed.

Lemma exiting_run_stores_nothing_witness :
  let f := mk_feature true true 16%N [] in
  let srv := mk_server true system_db three_databases script_fails_orders in
  stores (performed busy_process (start f srv busy_process).2) = [] /\
  ints (start f srv busy_process).2 = ints busy_process.
Proof.
  refine (exiting_run_stores_nothing
            (mk_feature true true 16%N [])
            (mk_server true system_db three_databases script_fails_orders)
            busy_process EXIT_FAILURE _).
  vm_compute. reflexivity.
Defined.

(** X13: [start] stores through [_result] only: an integer at any other
    address has after the run the value it had before, however the run
    ends. *)
Theorem start_stores_only_through_result f srv p a :
  a <> _result f ->
  ints (start f srv p).2 !! a = ints p !! a.
Proof.
  intros Ha.
  destruct (start_cases f srv p)
    as [(Hw & E)|[(Hw & Hc & E)|[(Hw & Hc & g' & p' & Hall & E & Ht & Hi & _)
       |(Hw & Hc & pre & d & post & g & p' & Edb & Hpre & Hd & E & Ht & Hi & _)]]];
    rewrite E; cbn [fst snd]; try reflexivity.
  - rewrite Hi. destruct (_upgrade f); [|reflexivity].
    apply lookup_insert_ne. congruence.
  - rewrite Hi. reflexivity.
Qed.

Lemma start_stores_only_through_result_witness :
  let f := mk_feature true true 16%N [] in
  let srv := mk_server true system_db three_databases script_succeeds in
  let p := mk_process [] {[ 16%N := 3%Z; 24%N := 5%Z ]} None [] None ∅ in
  ints (start f srv p).2 !! 24%N = ints p !! 24%N.
Proof.
  refine (start_stores_only_through_result
            (mk_feature true true 16%N [])
            (mk_server true system_db three_databases script_succeeds)
            (mk_process [] {[ 16%N := 3%Z; 24%N := 5%Z ]} None [] None ∅)
            24%N _).
  discriminate.
Defined.

Lemma debug_messages_app t1 t2 :
  debug_messages (t1 ++ t2) = debug_messages t1 ++ debug_messages t2.
Proof. apply omap_app. Qed.

Lemma debug_messages_calls dbs : debug_messages (calls dbs) = [].
Proof. induction dbs as [|d dbs IH]; simpl; [reflexivity|exact IH]. Qed.

(** X14: the message "database '...' init/upgrade done" is never logged,
    not even for the databases the script succeeds for: it sits in the
    branch taken when the script has failed, after the exits.  The only
    message [start] logs at level DEBUG is "running database init/upgrade",
    once, when the sweep is entered. *)
Theorem done_message_is_never_logged f srv p :
  debug_messages (performed p (start f srv p).2) =
  if wal_open srv && _upgradeCheck f
  then ["running database init/upgrade"]
  else [].
Proof.
  destruct (start_cases f srv p)
    as [(Hw & E)|[(Hw & Hc & E)|[(Hw & Hc & g' & p' & Hall & E & Ht & _)
       |(Hw & Hc & pre & d & post & g & p' & Edb & Hpre & Hd & E & Ht & _)]]];
    rewrite E, Hw, ?Hc; cbn [fst snd andb].
  - erewrite performed_app by (run_all; reflexivity). reflexivity.
  - erewrite performed_app by (run_all; reflexivity).
    destruct (_upgrade f); reflexivity.
  - rewrite (performed_app _ _ _ Ht). unfold sweep_epilogue.
    rewrite !debug_messages_app, debug_messages_calls.
    destruct (_upgrade f); reflexivity.
  - rewrite (performed_app _ _ _ Ht). unfold failure_events.
    rewrite !debug_messages_app, debug_messages_calls.
    destruct (started _); reflexivity.
Qed.
